(** * AWS static website deployer: a shallow embedding of
    [aws-website-deployer.py] and the properties of its specification.

    Python [str] values are modelled as [string] (byte strings); every
    character class, table key and separator the program looks at is ASCII,
    so characters outside ASCII fall outside all of them. *)

From Stdlib Require Import String Ascii ZArith List Lia Bool.
From stdpp Require Import gmap strings pretty.

Local Open Scope string_scope.

(** ** Python string primitives *)

Module PyStr.

Definition chars (s : string) : list ascii := list_ascii_of_string s.
Definition of_chars (l : list ascii) : string := string_of_list_ascii l.

(** The line feed and the double quote have no escape in a literal. *)
Definition LF : ascii := "010"%char.
Definition DQ : ascii := "034"%char.
Definition dq : string := String DQ EmptyString.

(** [sub in s] *)
Fixpoint contains (sub s : string) : bool :=
  if String.prefix sub s then true
  else match s with
       | EmptyString => false
       | String _ rest => contains sub rest
       end.

(** [s.replace(old, new)] for a one-character [old]: every occurrence is
    replaced, left to right. *)
Fixpoint replace (old : ascii) (new : string) (s : string) : string :=
  match s with
  | EmptyString => EmptyString
  | String c rest =>
      if Ascii.eqb c old then new +:+ replace old new rest
      else String c (replace old new rest)
  end.

(** [c.lower()] on ASCII: only [A]..[Z] move. *)
Definition lower_char (c : ascii) : ascii :=
  let n := nat_of_ascii c in
  if (65 <=? n)%nat && (n <=? 90)%nat then ascii_of_nat (n + 32) else c.

Fixpoint lower (s : string) : string :=
  match s with
  | EmptyString => EmptyString
  | String c rest => String (lower_char c) (lower rest)
  end.

(** [s.rfind(c)] for a one-character needle: the last index, or -1. *)
Fixpoint rfind_from (c : ascii) (s : string) (i : Z) (found : Z) : Z :=
  match s with
  | EmptyString => found
  | String x rest => rfind_from c rest (i + 1) (if Ascii.eqb x c then i else found)
  end.

Definition rfind (c : ascii) (s : string) : Z := rfind_from c s 0 (-1).

(** [s[i:j]] and [s[i:]] for in-range, non-negative bounds. *)
Definition slice (s : string) (i j : Z) : string :=
  String.substring (Z.to_nat i) (Z.to_nat (j - i)) s.

Definition slice_from (s : string) (i : Z) : string :=
  String.substring (Z.to_nat i) (String.length s - Z.to_nat i) s.

(** [s.split(sep)] for a non-empty [sep]; [cur] holds the piece being read,
    backwards, and [skip] the rest of a separator just met. *)
Fixpoint split_go (sep s : string) (skip : nat) (cur : string) : list string :=
  match s with
  | EmptyString => [String.rev cur]
  | String c rest =>
      match skip with
      | S k => split_go sep rest k cur
      | O =>
          if String.prefix sep s
          then String.rev cur :: split_go sep rest (String.length sep - 1) EmptyString
          else split_go sep rest 0 (String c cur)
      end
  end.

Definition split (sep s : string) : list string := split_go sep s 0 EmptyString.

(** [str(n)] for an integer. *)
Definition str_of_int (n : Z) : string := pretty n.

End PyStr.

(** ** The regular expressions of [re], as far as the program uses them

    A pattern is a sequence of quantified character classes closed by [$];
    [re.match] anchors it at the start of the input. *)

Module Re.

Inductive range :=
| Rng (a b : ascii)     (* a-b *)
| Chr (c : ascii).      (* a single character *)

Definition in_range (c : ascii) (r : range) : bool :=
  match r with
  | Rng a b => (nat_of_ascii a <=? nat_of_ascii c)%nat && (nat_of_ascii c <=? nat_of_ascii b)%nat
  | Chr x => Ascii.eqb x c
  end.

Definition in_class (cl : list range) (c : ascii) : bool := existsb (in_range c) cl.

(** [cl{lo,hi}]; [hi = None] is the open quantifier [{lo,}]. *)
Record item := Item { cls : list range; lo : nat; hi : option nat }.

Definition once (cl : list range) : item := Item cl 1 (Some 1).

Definition may_repeat (q : item) : bool :=
  match hi q with Some (S _) | None => true | Some O => false end.

Definition consumed (q : item) : item :=
  Item (cls q) (pred (lo q)) (pred <$> hi q).

(** [$] without [re.MULTILINE]: the end of the input, or just before a line
    feed that ends the input. *)
Definition at_end (s : list ascii) : bool :=
  match s with
  | [] => true
  | [c] => Ascii.eqb c PyStr.LF
  | _ => false
  end.

(** Whether some way of matching the items, then [$], exists from the start
    of [s]: the backtracking search of [re] finds a match exactly then. *)
Fixpoint match_here (s : list ascii) (p : list item) {struct s} : bool :=
  (fix items (p : list item) : bool :=
     match p with
     | [] => at_end s
     | q :: rest =>
         ((lo q =? 0)%nat && items rest)
         || match s with
            | c :: s' => in_class (cls q) c && may_repeat q && match_here s' (consumed q :: rest)
            | [] => false
            end
     end) p.

Definition re_match (p : list item) (s : string) : bool :=
  match_here (PyStr.chars s) p.

(** What the pattern means: the input is cut into one piece per item, each
    piece within the item's bounds and made of the item's class, and [$]
    holds of what is left. *)
Definition in_bounds (q : item) (n : nat) : Prop :=
  (lo q <= n)%nat /\ match hi q with Some h => (n <= h)%nat | None => True end.

Fixpoint matches (p : list item) (s : list ascii) : Prop :=
  match p with
  | [] => at_end s = true
  | q :: rest =>
      exists pre post, s = (pre ++ post)%list /\ in_bounds q (length pre) /\
        Forall (fun c => in_class (cls q) c = true) pre /\ matches rest post
  end.

End Re.

(** ** Domain validation and stack naming: the pure part *)

Definition alnum : list Re.range := [Re.Rng "a" "z"; Re.Rng "A" "Z"; Re.Rng "0" "9"].
Definition alnum_hyphen : list Re.range := alnum ++ [Re.Chr "-"].
Definition letters : list Re.range := [Re.Rng "a" "z"; Re.Rng "A" "Z"].

(** [^[a-zA-Z0-9][a-zA-Z0-9-]{1,61}[a-zA-Z0-9]\.[a-zA-Z]{2,}$] *)
Definition domain_pattern : list Re.item :=
  [ Re.once alnum;
    Re.Item alnum_hyphen 1 (Some 61);
    Re.once alnum;
    Re.once [Re.Chr "."];
    Re.Item letters 2 None ].

Definition domain_ok (domain : string) : bool := Re.re_match domain_pattern domain.

(** [get_stack_name] *)
Definition get_stack_name (domain : string) : string :=
  "website-" +:+ PyStr.replace "." "-" domain.

(** *** The shape the specification gives for a domain *)

Definition is_label (lo hi : nat) (l : list ascii) : Prop :=
  (lo <= length l <= hi)%nat /\
  Forall (fun c => Re.in_class alnum_hyphen c = true) l /\
  head l <> Some "-"%char /\ last l <> Some "-"%char.

Definition is_tld (t : list ascii) : Prop :=
  (2 <= length t)%nat /\ Forall (fun c => Re.in_class letters c = true) t.

Definition shape_chars (lo hi : nat) (l : list ascii) : Prop :=
  exists label tld, l = (label ++ "."%char :: tld)%list /\ is_label lo hi label /\ is_tld tld.

Definition domain_shape (lo hi : nat) (s : string) : Prop :=
  exists label tld : string,
    s = (label +:+ "." +:+ tld)%string /\
    is_label lo hi (PyStr.chars label) /\ is_tld (PyStr.chars tld).

(** The shape in the specification's words: a label of 2 to 63 characters. *)
Definition spec_domain_shape : string -> Prop := domain_shape 2 63.

(** The stack name in the specification's words: every dot becomes a
    hyphen, behind the prefix. *)
Definition dots_to_hyphens (l : list ascii) : list ascii :=
  map (fun c => if Ascii.eqb c "." then "-"%char else c) l.

Definition spec_stack_name (domain : string) : string :=
  ("website-" +:+ PyStr.of_chars (dots_to_hyphens (PyStr.chars domain)))%string.

(** ** Content types *)

(** [posixpath.splitext]: the extension starts at the last dot of the last
    path component, unless only dots precede it there. *)
Fixpoint skip_leading_dots (fuel : nat) (p : string) (filenameIndex dotIndex : Z) : bool :=
  match fuel with
  | O => false
  | S fuel' =>
      if (filenameIndex <? dotIndex)%Z then
        if negb (String.eqb (PyStr.slice p filenameIndex (filenameIndex + 1)) ".")
        then true
        else skip_leading_dots fuel' p (filenameIndex + 1) dotIndex
      else false
  end.

Definition splitext (p : string) : string * string :=
  let sepIndex := PyStr.rfind "/" p in
  let dotIndex := PyStr.rfind "." p in
  if (dotIndex >? sepIndex)%Z
     && skip_leading_dots (Z.to_nat (dotIndex - sepIndex)) p (sepIndex + 1) dotIndex
  then (PyStr.slice p 0 dotIndex, PyStr.slice_from p dotIndex)
  else (p, EmptyString).

Definition content_types : gmap string string :=
  list_to_map
    [ (".html", "text/html");
      (".css", "text/css");
      (".js", "application/javascript");
      (".json", "application/json");
      (".png", "image/png");
      (".jpg", "image/jpeg");
      (".jpeg", "image/jpeg");
      (".gif", "image/gif");
      (".svg", "image/svg+xml");
      (".ico", "image/x-icon");
      (".pdf", "application/pdf");
      (".txt", "text/plain");
      (".xml", "application/xml") ]%string.

(** The variable [ext] of [get_content_type]. *)
Definition file_ext (filename : string) : string := PyStr.lower (snd (splitext filename)).

Definition get_content_type (filename : string) : string :=
  let ext := file_ext filename in
  default "binary/octet-stream"%string (content_types !! ext).

(** [get_cloudformation_template]: the template, returned as it stands. *)
Definition get_cloudformation_template : string :=
  "
AWSTemplateFormatVersion: '2010-09-09'
Description: 'Static website hosting with S3, CloudFront, Route53, and SSL certificate'

Parameters:
  DomainName:
    Type: String
    Description: Domain name for the website
    AllowedPattern: (?!-)[a-zA-Z0-9-.]{1,63}(?<!-)
    ConstraintDescription: must be a valid domain name.

Resources:
  S3Bucket:
    Type: AWS::S3::Bucket
    Properties:
      BucketName: !Ref DomainName
      PublicAccessBlockConfiguration:
        BlockPublicAcls: true
        BlockPublicPolicy: true
        IgnorePublicAcls: true
        RestrictPublicBuckets: true
      BucketEncryption:
        ServerSideEncryptionConfiguration:
          - ServerSideEncryptionByDefault:
              SSEAlgorithm: AES256
      VersioningConfiguration:
        Status: Enabled

  S3BucketWww:
    Type: AWS::S3::Bucket
    Properties:
      BucketName: !Sub 'www.${DomainName}'
      PublicAccessBlockConfiguration:
        BlockPublicAcls: true
        BlockPublicPolicy: true
        IgnorePublicAcls: true
        RestrictPublicBuckets: true
      WebsiteConfiguration:
        RedirectAllRequestsTo:
          HostName: !Ref DomainName
          Protocol: https

  OriginAccessControl:
    Type: AWS::CloudFront::OriginAccessControl
    Properties:
      OriginAccessControlConfig:
        Name: !Sub '${DomainName}-OAC'
        OriginAccessControlOriginType: s3
        SigningBehavior: always
        SigningProtocol: sigv4

  CloudFrontDistribution:
    Type: AWS::CloudFront::Distribution
    Properties:
      DistributionConfig:
        Origins:
          - DomainName: !GetAtt S3Bucket.RegionalDomainName
            Id: S3Origin
            S3OriginConfig:
              OriginAccessIdentity: ''
            OriginAccessControlId: !GetRef OriginAccessControl
        Enabled: true
        HttpVersion: http2
        DefaultRootObject: index.html
        Aliases:
          - !Ref DomainName
          - !Sub 'www.${DomainName}'
        DefaultCacheBehavior:
          AllowedMethods:
            - DELETE
            - GET
            - HEAD
            - OPTIONS
            - PATCH
            - POST
            - PUT
          TargetOriginId: S3Origin
          ViewerProtocolPolicy: redirect-to-https
          CachePolicyId: 4135ea2d-6df8-44a3-9df3-4b5a84be39ad
          OriginRequestPolicyId: 88a5eaf4-2fd4-4709-b370-b4c650ea3fcf
        PriceClass: PriceClass_100
        ViewerCertificate:
          AcmCertificateArn: !Ref SSLCertificate
          SslSupportMethod: sni-only
          MinimumProtocolVersion: TLSv1.2_2021
        CustomErrorResponses:
          - ErrorCode: 403
            ResponseCode: 200
            ResponsePagePath: /index.html
          - ErrorCode: 404
            ResponseCode: 200
            ResponsePagePath: /index.html

  S3BucketPolicy:
    Type: AWS::S3::BucketPolicy
    Properties:
      Bucket: !Ref S3Bucket
      PolicyDocument:
        Statement:
          - Sid: AllowCloudFrontServicePrincipal
            Effect: Allow
            Principal:
              Service: cloudfront.amazonaws.com
            Action: 's3:GetObject'
            Resource: !Sub '${S3Bucket}/*'
            Condition:
              StringEquals:
                'AWS:SourceArn': !Sub 'arn:aws:cloudfront::${AWS::AccountId}:distribution/${CloudFrontDistribution}'

  HostedZone:
    Type: AWS::Route53::HostedZone
    Properties:
      HostedZoneConfig:
        Comment: !Sub 'Hosted zone for ${DomainName}'
      Name: !Ref DomainName

  SSLCertificate:
    Type: AWS::CertificateManager::Certificate
    Properties:
      DomainName: !Ref DomainName
      SubjectAlternativeNames:
        - !Sub 'www.${DomainName}'
      DomainValidationOptions:
        - DomainName: !Ref DomainName
          HostedZoneId: !Ref HostedZone
        - DomainName: !Sub 'www.${DomainName}'
          HostedZoneId: !Ref HostedZone
      ValidationMethod: DNS

  DNSRecord:
    Type: AWS::Route53::RecordSetGroup
    Properties:
      HostedZoneId: !Ref HostedZone
      RecordSets:
        - Name: !Ref DomainName
          Type: A
          AliasTarget:
            DNSName: !GetAtt CloudFrontDistribution.DomainName
            HostedZoneId: Z2FDTNDATAQYW2
        - Name: !Sub 'www.${DomainName}'
          Type: A
          AliasTarget:
            DNSName: !GetAtt CloudFrontDistribution.DomainName
            HostedZoneId: Z2FDTNDATAQYW2

Outputs:
  WebsiteURL:
    Value: !Sub 'https://${DomainName}'
    Description: URL for website hosted on S3
  
  S3BucketSecureURL:
    Value: !Sub 'https://${S3Bucket.DomainName}'
    Description: Name of S3 bucket to hold website content
  
  CloudFrontDistributionId:
    Value: !Ref CloudFrontDistribution
    Description: CloudFront Distribution ID
  
  CloudFrontDomainName:
    Value: !GetAtt CloudFrontDistribution.DomainName
    Description: CloudFront Distribution Domain Name
  
  HostedZoneId:
    Value: !Ref HostedZone
    Description: Route53 Hosted Zone ID
  
  SSLCertificateArn:
    Value: !Ref SSLCertificate
    Description: SSL Certificate ARN
  
  NameServers:
    Value: !Join [', ', !GetAtt HostedZone.NameServers]
    Description: Name servers for the hosted zone
"%string.

(** The f-string [html_content] of [create_sample_website], cut at its two
    uses of [domain]; [PyStr.dq] stands for each double quote. *)
Definition html_part1 : string :=
  (String.concat PyStr.dq ["<!DOCTYPE html>
<html lang="; "en"; ">
<head>
    <meta charset="; "UTF-8"; ">
    <meta name="; "viewport"; " content="; "width=device-width, initial-scale=1.0"; ">
    <title>Welcome to "])%string.

Definition html_part2 : string :=
  (String.concat PyStr.dq ["</title>
    <style>
        body {
            font-family: -apple-system, BlinkMacSystemFont, 'Segoe UI', Roboto, sans-serif;
            line-height: 1.6;
            margin: 0;
            padding: 0;
            background: linear-gradient(135deg, #667eea 0%, #764ba2 100%);
            min-height: 100vh;
            display: flex;
            align-items: center;
            justify-content: center;
        }
        .container {
            background: white;
            padding: 2rem;
            border-radius: 10px;
            box-shadow: 0 10px 30px rgba(0,0,0,0.1);
            text-align: center;
            max-width: 600px;
            margin: 1rem;
        }
        h1 {
            color: #333;
            margin-bottom: 1rem;
        }
        .emoji {
            font-size: 3rem;
            margin-bottom: 1rem;
        }
        .info {
            background: #f8f9fa;
            padding: 1rem;
            border-radius: 5px;
            margin: 1rem 0;
        }
        .badge {
            display: inline-block;
            background: #28a745;
            color: white;
            padding: 0.25rem 0.5rem;
            border-radius: 3px;
            font-size: 0.8rem;
            margin: 0.2rem;
        }
        .python-badge {
            background: #3776ab;
            color: white;
            padding: 0.5rem 1rem;
            border-radius: 5px;
            margin: 1rem 0;
            display: inline-block;
        }
    </style>
</head>
<body>
    <div class="; "container"; ">
        <div class="; "emoji"; ">🚀</div>
        <h1>Welcome to "])%string.

Definition html_part3 : string :=
  (String.concat PyStr.dq ["</h1>
        <p>Your website is now live on AWS!</p>
        
        <div class="; "info"; ">
            <h3>Powered by:</h3>
            <span class="; "badge"; ">Amazon S3</span>
            <span class="; "badge"; ">CloudFront CDN</span>
            <span class="; "badge"; ">Route53 DNS</span>
            <span class="; "badge"; ">SSL Certificate</span>
        </div>
        
        <div class="; "python-badge"; ">
            🐍 Deployed with Python Script
        </div>
        
        <p>Replace this file with your own <code>index.html</code> to get started.</p>
        <p><small>Deployed with AWS Static Website Deployer (Python)</small></p>
    </div>
</body>
</html>"])%string.

Definition html_content (domain : string) : string :=
  (html_part1 +:+ domain +:+ html_part2 +:+ domain +:+ html_part3)%string.

(** ** Paths and the local file system *)

(** [posixpath.join] of two components. *)
Definition path_join (a b : string) : string :=
  if String.prefix "/" b then b
  else if String.eqb a "" || String.eqb (PyStr.slice_from a (Z.of_nat (String.length a) - 1)) "/"
       then (a +:+ b)%string
       else (a +:+ "/" +:+ b)%string.

(** A directory lists its entries in the order [os.scandir] gives them. *)
#[warnings="-register-all"] Inductive node :=
| File (content : string)
| Dir (entries : list (string * node)).

Definition is_dir (n : node) : bool := match n with Dir _ => true | File _ => false end.

Definition dirnames (entries : list (string * node)) : list string :=
  fst <$> filter (fun e => is_dir (snd e) = true) entries.

Definition filenames (entries : list (string * node)) : list string :=
  fst <$> filter (fun e => is_dir (snd e) = false) entries.

(** [os.walk(top)], top-down, errors ignored: a triple for the directory,
    then the walk of each sub-directory; nothing for what is no directory. *)
Fixpoint walk (top : string) (n : node) : list (string * list string * list string) :=
  match n with
  | File _ => []
  | Dir entries =>
      (top, dirnames entries, filenames entries)
      :: flat_map (fun e => walk (path_join top (fst e)) (snd e)) entries
  end.

(** ** Dictionaries

    A [dict] of strings keeps its keys in insertion order; assigning to a
    key it has keeps the key's place. *)

Definition dict := list (string * string).

Fixpoint dict_set (k v : string) (d : dict) : dict :=
  match d with
  | [] => [(k, v)]
  | (k', v') :: rest =>
      if String.eqb k' k then (k, v) :: rest else (k', v') :: dict_set k v rest
  end.

Fixpoint dict_get (k : string) (d : dict) : option string :=
  match d with
  | [] => None
  | (k', v') :: rest => if String.eqb k' k then Some v' else dict_get k rest
  end.

(** [not d] *)
Definition dict_empty (d : dict) : bool := match d with [] => true | _ => false end.

(** ** Exceptions, requests and the services behind them *)

Inductive exn :=
| ClientError (Code Message operation_name retry_info : string)
| WaiterError (name reason : string)
| NoCredentialsError
| OtherError (text : string).

Definition is_ClientError (e : exn) : bool :=
  match e with ClientError _ _ _ _ => true | _ => false end.

Definition is_NoCredentialsError (e : exn) : bool :=
  match e with NoCredentialsError => true | _ => false end.

(** [except Exception]: every modelled exception is one. *)
Definition is_Exception (e : exn) : bool := true.

(** [str(e)], with the message templates of botocore. *)
Definition str_exn (e : exn) : string :=
  match e with
  | ClientError code message operation retry =>
      ("An error occurred (" +:+ code +:+ ") when calling the " +:+ operation
       +:+ " operation" +:+ retry +:+ ": " +:+ message)%string
  | WaiterError name reason => ("Waiter " +:+ name +:+ " failed: " +:+ reason)%string
  | NoCredentialsError => "Unable to locate credentials"%string
  | OtherError text => text
  end.

(** [e.response['Error']['Code']] *)
Definition error_code (e : exn) : string :=
  match e with ClientError code _ _ _ => code | _ => EmptyString end.

Inductive waiter := stack_create_complete | stack_update_complete | stack_delete_complete.

#[global] Instance waiter_eq_dec : EqDecision waiter.
Proof. solve_decision. Defined.

Definition waiter_name (w : waiter) : string :=
  match w with
  | stack_create_complete => "StackCreateComplete"
  | stack_update_complete => "StackUpdateComplete"
  | stack_delete_complete => "StackDeleteComplete"
  end%string.

(** What one attempt of a waiter finds: an acceptor for success or failure
    matches the answer (an error answer included), or none does; a request
    that could not be made at all raises, never as a [ClientError]. *)
Inductive poll :=
| PollSuccess
| PollFailure (reason : string)
| PollRetry
| PollCrash (text : string).

Record stack := Stack {
  StackStatus : string;
  CreationTime : string;
  LastUpdatedTime : option string;
  Outputs : option (list (string * string))   (* OutputKey, OutputValue *)
}.

(** The requests the program sends, and its sleeps between polls. *)
Inductive call :=
| GetCallerIdentity
| DescribeStacks (StackName : string)
| CreateStack (StackName TemplateBody : string) (Parameters : list (string * string))
              (Capabilities : list string)
| UpdateStack (StackName TemplateBody : string) (Parameters : list (string * string))
              (Capabilities : list string)
| DeleteStack (StackName : string)
| WaiterPoll (w : waiter) (StackName : string)
| Sleep (seconds : nat)
| UploadFile (Filename Bucket Key ContentType : string)
| CreateInvalidation (DistributionId : string) (Quantity : Z) (Items : list string)
                     (CallerReference : string)
| HeadBucket (Bucket : string)
| ListObjectsV2 (Bucket : string)
| DeleteObjects (Bucket : string) (Keys : list string).

#[global] Instance call_eq_dec : EqDecision call.
Proof. solve_decision. Defined.

(** The world outside the program. Each service answers a request from the
    requests sent before it, so an answer may depend on everything the
    program has done so far. A listing comes as the finite run of pages its
    iterator will produce. *)
Record services := Services {
  new_session : option exn;
  get_caller_identity : list call -> exn + (string * string);   (* Account, Arn *)
  describe_stacks : list call -> string -> exn + list stack;
  create_stack : list call -> string -> string -> list (string * string) -> list string
                 -> option exn;
  update_stack : list call -> string -> string -> list (string * string) -> list string
                 -> option exn;
  delete_stack : list call -> string -> option exn;
  waiter_poll : list call -> waiter -> string -> poll;
  upload_file : list call -> string -> string -> string -> string -> option exn;
  create_invalidation : list call -> string -> Z -> list string -> string -> option exn;
  head_bucket : list call -> string -> option exn;
  list_objects_pages : list call -> string -> list (exn + option (list string));
  delete_objects : list call -> string -> list string -> option exn;
  time_time : list call -> Z;            (* int(time.time()) *)
  relpath : string -> string -> string;  (* os.path.relpath *)
  mkdtemp : list call -> string;
  input : list call -> string
}.

(** ** The program's effects *)

(** A printed line: the helper that printed it stands for its colour and
    emoji; [Clipboard] is the yellow line above the name servers, [Usage]
    the help text of [argparse] and [Traceback] what the interpreter prints
    for an exception nobody caught. *)
Inductive level :=
  Status | Info | Warning | Error | Header | Plain | Clipboard | Usage | Traceback.

Record world := World {
  api : list call;                 (* requests sent, oldest first *)
  console : list (level * string); (* lines printed, oldest first *)
  fs : gmap string node            (* local directories and files by path *)
}.

Inductive outcome (A : Type) :=
| Return (a : A)
| Raise (e : exn)
| SysExit (code : Z).

Arguments Return {A} a.
Arguments Raise {A} e.
Arguments SysExit {A} code.

Definition M (A : Type) : Type := world -> outcome A * world.

#[global] Instance M_ret : MRet M := fun A a w => (Return a, w).

#[global] Instance M_bind : MBind M := fun A B f m w =>
  match m w with
  | (Return a, w') => f a w'
  | (Raise e, w') => (Raise e, w')
  | (SysExit c, w') => (SysExit c, w')
  end.

Definition raise {A} (e : exn) : M A := fun w => (Raise e, w).

Definition sys_exit {A} (code : Z) : M A := fun w => (SysExit code, w).

(** [try: body  except <catches> as e: handler e] *)
Definition try_except {A} (body : M A) (catches : exn -> bool) (handler : exn -> M A) : M A :=
  fun w =>
    match body w with
    | (Raise e, w') => if catches e then handler e w' else (Raise e, w')
    | r => r
    end.

(** [for x in xs: body x] *)
Fixpoint for_each {A} (xs : list A) (body : A -> M unit) : M unit :=
  match xs with
  | [] => mret tt
  | x :: rest => body x;; for_each rest body
  end.

Definition say (l : level) (message : string) (w : world) : world :=
  World (api w) (console w ++ [(l, message)]) (fs w).

Definition print_line (l : level) (message : string) : M unit :=
  fun w => (Return tt, say l message w).

Definition print_status := print_line Status.
Definition print_info := print_line Info.
Definition print_warning := print_line Warning.
Definition print_error := print_line Error.
Definition print_header := print_line Header.
Definition print := print_line Plain.

Definition log (c : call) (w : world) : world := World (api w ++ [c]) (console w) (fs w).

(** Send [c]; the service answers from the requests before it. *)
Definition request {R} (c : call) (answer : list call -> exn + R) : M R :=
  fun w =>
    match answer (api w) with
    | inl e => (Raise e, log c w)
    | inr r => (Return r, log c w)
    end.

Definition raises (r : option exn) : exn + unit :=
  match r with Some e => inl e | None => inr tt end.

Definition get_fs : M (gmap string node) := fun w => (Return (fs w), w).

Definition set_fs (f : gmap string node) : M unit :=
  fun w => (Return tt, World (api w) (console w) f).

Definition get_api : M (list call) := fun w => (Return (api w), w).

(** ** The deployer *)

Inductive command_name := deploy | cleanup | status.

Record args := Args {
  command : option command_name;
  domain : string;
  website_folder : option string;
  region : string
}.

Section Deployer.

Variable svc : services.

(** *** Clients *)

Definition sts_get_caller_identity : M (string * string) :=
  request GetCallerIdentity (get_caller_identity svc).

Definition cloudformation_describe_stacks (StackName : string) : M (list stack) :=
  request (DescribeStacks StackName) (fun h => describe_stacks svc h StackName).

Definition cloudformation_create_stack (StackName TemplateBody : string)
    (Parameters : list (string * string)) (Capabilities : list string) : M unit :=
  request (CreateStack StackName TemplateBody Parameters Capabilities)
          (fun h => raises (create_stack svc h StackName TemplateBody Parameters Capabilities)).

Definition cloudformation_update_stack (StackName TemplateBody : string)
    (Parameters : list (string * string)) (Capabilities : list string) : M unit :=
  request (UpdateStack StackName TemplateBody Parameters Capabilities)
          (fun h => raises (update_stack svc h StackName TemplateBody Parameters Capabilities)).

Definition cloudformation_delete_stack (StackName : string) : M unit :=
  request (DeleteStack StackName) (fun h => raises (delete_stack svc h StackName)).

Definition s3_upload_file (Filename Bucket Key ContentType : string) : M unit :=
  request (UploadFile Filename Bucket Key ContentType)
          (fun h => raises (upload_file svc h Filename Bucket Key ContentType)).

Definition s3_head_bucket (Bucket : string) : M unit :=
  request (HeadBucket Bucket) (fun h => raises (head_bucket svc h Bucket)).

Definition s3_delete_objects (Bucket : string) (Keys : list string) : M unit :=
  request (DeleteObjects Bucket Keys) (fun h => raises (delete_objects svc h Bucket Keys)).

Definition cloudfront_create_invalidation (DistributionId : string) (Quantity : Z)
    (Items : list string) (CallerReference : string) : M unit :=
  request (CreateInvalidation DistributionId Quantity Items CallerReference)
          (fun h => raises (create_invalidation svc h DistributionId Quantity Items CallerReference)).

Definition time_sleep (seconds : nat) : M unit :=
  request (Sleep seconds) (fun _ => inr tt).

(** [int(time.time())] *)
Definition int_time : M Z := fun w => (Return (time_time svc (api w)), w).

(** [paginator.paginate(Bucket=...)]: no request yet; the pages come one
    request each as the loop asks for them. *)
Definition s3_paginate (Bucket : string) : M (list (exn + option (list string))) :=
  fun w => (Return (list_objects_pages svc (api w) Bucket), w).

Definition next_page (Bucket : string) (page : exn + option (list string))
  : M (option (list string)) :=
  request (ListObjectsV2 Bucket) (fun _ => page).

(** *** The waiter of botocore

    [Waiter.wait] polls, then returns on success, raises on a terminal
    failure, raises once [num_attempts >= max_attempts], and sleeps [delay]
    otherwise. [remaining] is [max_attempts - num_attempts] after the poll. *)
Fixpoint wait_loop (w : waiter) (StackName : string) (delay remaining : nat) : M unit :=
  state ← request (WaiterPoll w StackName) (fun h => inr (waiter_poll svc h w StackName));
  match state with
  | PollSuccess => mret tt
  | PollFailure reason => raise (WaiterError (waiter_name w) reason)
  | PollCrash text => raise (OtherError text)
  | PollRetry =>
      match remaining with
      | O => raise (WaiterError (waiter_name w) "Max attempts exceeded")
      | S remaining' => time_sleep delay;; wait_loop w StackName delay remaining'
      end
  end.

Definition waiter_wait (w : waiter) (StackName : string) (Delay MaxAttempts : nat) : M unit :=
  wait_loop w StackName Delay (MaxAttempts - 1).

(** *** [__init__] *)
Definition new_deployer (region : string) : M unit :=
  match new_session svc with
  | None => mret tt
  | Some e =>
      if is_NoCredentialsError e then
        print_error "AWS credentials not configured";;
        print "Configure using: aws configure";;
        print "Or set environment variables: AWS_ACCESS_KEY_ID, AWS_SECRET_ACCESS_KEY";;
        sys_exit 1
      else raise e
  end.

(** *** [validate_domain] *)
Definition validate_domain (domain : string) : M unit :=
  if negb (domain_ok domain) then
    print_error ("Invalid domain name format: " +:+ domain);;
    sys_exit 1
  else mret tt.

(** *** [check_credentials] *)
Definition check_credentials : M bool :=
  try_except
    (identity ← sts_get_caller_identity;
     print_status "AWS credentials validated";;
     print_info ("Account ID: " +:+ fst identity);;
     print_info ("User/Role: " +:+ snd identity);;
     mret true)
    is_Exception
    (fun e => print_error ("AWS credentials invalid: " +:+ str_exn e);; mret false).

(** *** [deploy_stack] *)
Inductive operation := CREATE | UPDATE.

Definition deploy_stack (domain : string) : M bool :=
  let stack_name := get_stack_name domain in
  print_header ("Deploying AWS Infrastructure for " +:+ domain +:+ "...");;
  let template := get_cloudformation_template in
  try_except
    (operation ←
       try_except
         (cloudformation_describe_stacks stack_name;;
          print_info "Stack exists, updating...";;
          cloudformation_update_stack stack_name template
            [("DomainName", domain)] ["CAPABILITY_IAM"];;
          mret UPDATE)
         is_ClientError
         (fun e =>
            if PyStr.contains "does not exist" (str_exn e) then
              print_info "Creating new stack...";;
              cloudformation_create_stack stack_name template
                [("DomainName", domain)] ["CAPABILITY_IAM"];;
              mret CREATE
            else raise e);
     print_info "Waiting for stack operation to complete...";;
     print_warning "This may take 10-15 minutes for SSL certificate validation...";;
     let waiter :=
       match operation with
       | CREATE => stack_create_complete
       | UPDATE => stack_update_complete
       end in
     waiter_wait waiter stack_name 30 120;;
     print_status "Infrastructure deployed successfully";;
     mret true)
    is_Exception
    (fun e => print_error ("Stack deployment failed: " +:+ str_exn e);; mret false).

(** *** [get_stack_outputs] *)
Definition output_dict (outputs : list (string * string)) : dict :=
  foldl (fun d output => dict_set (fst output) (snd output) d) [] outputs.

Definition get_stack_outputs (domain : string) : M dict :=
  let stack_name := get_stack_name domain in
  try_except
    (response ← cloudformation_describe_stacks stack_name;
     match response with
     | [] => raise (OtherError "list index out of range")
     | first :: _ => mret (output_dict (default [] (Outputs first)))
     end)
    is_Exception
    (fun e => print_error ("Failed to get stack outputs: " +:+ str_exn e);; mret []).

(** *** [display_stack_info] *)
Definition enumerate_from (start : Z) (l : list string) : list (Z * string) :=
  zip (Z.add start <$> (Z.of_nat <$> seq 0 (length l))) l.

Definition display_stack_info (domain : string) : M unit :=
  outputs ← get_stack_outputs domain;
  if dict_empty outputs then mret tt
  else
    print "";;
    print_header "Deployment Complete!";;
    print "";;
    print_info ("Website URL: " +:+ default "N/A" (dict_get "WebsiteURL" outputs));;
    print_info ("S3 Bucket: " +:+ domain);;
    print_info ("CloudFront Distribution ID: "
                +:+ default "N/A" (dict_get "CloudFrontDistributionId" outputs));;
    print "";;
    let name_servers := default "" (dict_get "NameServers" outputs) in
    (if negb (String.eqb name_servers "") then
       print_line Clipboard "NAME SERVERS (Add these to your domain registrar):";;
       for_each (enumerate_from 1 (PyStr.split ", " name_servers))
         (fun i_ns => print ("   " +:+ PyStr.str_of_int (fst i_ns) +:+ ". " +:+ snd i_ns));;
       print ""
     else mret tt);;
    print_warning "DNS propagation can take 24-48 hours".

(** *** [upload_files] *)
Definition path_exists (path : string) : M bool :=
  f ← get_fs; mret (bool_decide (is_Some (f !! path))).

Definition os_walk (top : string) : M (list (string * list string * list string)) :=
  f ← get_fs; mret (match f !! top with Some n => walk top n | None => [] end).

(** [if cloudfront_id:] *)
Definition truthy (v : option string) : bool :=
  match v with
  | Some s => negb (String.eqb s "")
  | None => false
  end.

Definition upload_one (domain folder_path root file : string) : M unit :=
  let local_path := path_join root file in
  let relative_path := relpath svc local_path folder_path in
  let s3_key := PyStr.replace "\" "/" relative_path in
  let content_type := get_content_type file in
  s3_upload_file local_path domain s3_key content_type;;
  print_info ("Uploaded: " +:+ s3_key).

Definition upload_files (domain folder_path : string) : M bool :=
  exists_ ← path_exists folder_path;
  if negb exists_ then
    print_error ("Website folder '" +:+ folder_path +:+ "' does not exist");;
    mret false
  else
    print_header ("Uploading website files from " +:+ folder_path +:+ "...");;
    try_except
      (triples ← os_walk folder_path;
       for_each triples (fun triple =>
         let root := fst (fst triple) in
         let files := snd triple in
         for_each files (upload_one domain folder_path root));;
       print_status "Files uploaded successfully";;
       outputs ← get_stack_outputs domain;
       let cloudfront_id := dict_get "CloudFrontDistributionId" outputs in
       (if truthy cloudfront_id then
          print_info "Invalidating CloudFront cache...";;
          now ← int_time;
          cloudfront_create_invalidation (default "" cloudfront_id) 1 ["/*"]
            (PyStr.str_of_int now);;
          print_status "CloudFront cache invalidated"
        else mret tt);;
       mret true)
      is_Exception
      (fun e => print_error ("File upload failed: " +:+ str_exn e);; mret false).

(** *** [create_sample_website] *)

(** [with tempfile.TemporaryDirectory() as temp_dir: body]: a fresh empty
    directory, removed with all it holds when the block is left. *)
Definition with_temporary_directory {A} (body : string -> M A) : M A :=
  fun w =>
    let temp_dir := mkdtemp svc (api w) in
    let (r, w') := body temp_dir (World (api w) (console w) (<[temp_dir := Dir []]> (fs w))) in
    (r, World (api w') (console w') (delete temp_dir (fs w'))).

(** [with open(os.path.join(dir, name), 'w') as f: f.write(content)] *)
Definition write_file (dir name content : string) : M unit :=
  f ← get_fs;
  match f !! dir with
  | Some (Dir entries) =>
      set_fs (<[dir := Dir (filter (fun e => fst e ≠ name) entries ++ [(name, File content)])]> f)
  | _ => raise (OtherError ("No such file or directory: '" +:+ path_join dir name +:+ "'"))
  end.

(** The body of the [with] block of [create_sample_website]: the page is
    written into the directory, then the directory is uploaded. *)
Definition sample_website_block (domain temp_dir : string) : M bool :=
  write_file temp_dir "index.html" (html_content domain);;
  upload_files domain temp_dir.

Definition create_sample_website (domain : string) : M unit :=
  print_info "Creating sample website...";;
  with_temporary_directory (sample_website_block domain);;
  print_status "Sample website deployed".

(** *** [empty_s3_buckets] *)
Definition delete_page (bucket_name : string) (page : exn + option (list string)) : M unit :=
  contents ← next_page bucket_name page;
  match contents with
  | Some keys => s3_delete_objects bucket_name keys
  | None => mret tt
  end.

Definition empty_bucket (bucket_name : string) : M unit :=
  try_except
    (s3_head_bucket bucket_name;;
     print_info ("Emptying bucket: " +:+ bucket_name);;
     pages ← s3_paginate bucket_name;
     for_each pages (delete_page bucket_name);;
     print_status ("Bucket " +:+ bucket_name +:+ " emptied"))
    is_ClientError
    (fun e =>
       if String.eqb (error_code e) "404" then
         print_info ("Bucket " +:+ bucket_name +:+ " does not exist")
       else
         print_warning ("Error emptying bucket " +:+ bucket_name +:+ ": " +:+ str_exn e)).

Definition empty_s3_buckets (domain : string) : M unit :=
  print_info "Emptying S3 buckets...";;
  let buckets := [domain; ("www." +:+ domain)%string] in
  for_each buckets empty_bucket.

(** *** [cleanup_stack] *)
Definition cleanup_stack (domain : string) : M bool :=
  let stack_name := get_stack_name domain in
  print_header ("Cleaning up AWS resources for " +:+ domain +:+ "...");;
  empty_s3_buckets domain;;
  try_except
    (cloudformation_describe_stacks stack_name;;
     print_info ("Deleting CloudFormation stack: " +:+ stack_name);;
     cloudformation_delete_stack stack_name;;
     print_info "Waiting for stack deletion to complete...";;
     print_warning "This may take several minutes...";;
     waiter_wait stack_delete_complete stack_name 30 60;;
     print_status "Stack deleted successfully";;
     mret true)
    is_ClientError
    (fun e =>
       if PyStr.contains "does not exist" (str_exn e) then
         print_info ("CloudFormation stack " +:+ stack_name +:+ " does not exist");;
         mret true
       else
         print_error ("Stack deletion failed: " +:+ str_exn e);;
         mret false).

(** *** [get_stack_status] *)
Definition get_stack_status (domain : string) : M bool :=
  let stack_name := get_stack_name domain in
  try_except
    (response ← cloudformation_describe_stacks stack_name;
     match response with
     | [] => raise (OtherError "list index out of range")
     | stack :: _ =>
         print_header ("Status for " +:+ domain);;
         print "";;
         print_info ("Stack Name: " +:+ stack_name);;
         print_info ("Stack Status: " +:+ StackStatus stack);;
         print_info ("Creation Time: " +:+ CreationTime stack);;
         match LastUpdatedTime stack with
         | Some t => print_info ("Last Updated: " +:+ t)
         | None => mret tt
         end;;
         outputs ← get_stack_outputs domain;
         (if dict_empty outputs then mret tt
          else
            print "";;
            print_info "Stack Outputs:";;
            for_each outputs
              (fun kv => print ("  • " +:+ fst kv +:+ ": " +:+ snd kv)));;
         mret true
     end)
    is_ClientError
    (fun e =>
       if PyStr.contains "does not exist" (str_exn e) then
         print_info ("No stack found for domain: " +:+ domain);;
         mret false
       else
         print_error ("Error getting stack status: " +:+ str_exn e);;
         mret false).

(** *** [main], after [argparse] has filled [args] *)
Definition read_input (prompt : string) : M string :=
  fun w => (Return (input svc (api w)), w).

Definition main (a : args) : M unit :=
  match command a with
  | None => print_line Usage "";; sys_exit 1
  | Some cmd =>
      print "";;
      print_header "AWS Static Website Deployer - Python Edition";;
      print "";;
      new_deployer (region a);;
      validate_domain (domain a);;
      valid ← check_credentials;
      if negb valid then sys_exit 1
      else
        match cmd with
        | deploy =>
            deployed ← deploy_stack (domain a);
            if negb deployed then sys_exit 1
            else
              display_stack_info (domain a);;
              (if truthy (website_folder a) then
                 uploaded ← upload_files (domain a) (default "" (website_folder a));
                 if negb uploaded then sys_exit 1 else mret tt
               else
                 print_info "No website folder specified, creating sample website...";;
                 create_sample_website (domain a));;
              print "";;
              print_header "🎉 Deployment Complete!";;
              print "";;
              print_info "Next steps:";;
              print "1. Add the name servers to your domain registrar";;
              print "2. Wait 24-48 hours for DNS propagation";;
              print ("3. Visit https://" +:+ domain a +:+ " to see your website");;
              print ""
        | cleanup =>
            print_warning ("⚠️  WARNING: This will permanently delete all AWS resources for "
                           +:+ domain a);;
            print "";;
            print "This includes:";;
            print "• S3 buckets and all website files";;
            print "• CloudFront distribution";;
            print "• Route53 hosted zone";;
            print "• SSL certificate";;
            print "";;
            confirmation ← read_input "Are you sure you want to continue? (type 'yes' to confirm): ";
            if negb (String.eqb confirmation "yes") then
              print_info "Cleanup cancelled";;
              sys_exit 0
            else
              cleaned ← cleanup_stack (domain a);
              if negb cleaned then sys_exit 1
              else print_status "Cleanup completed!"
        | status =>
            ok ← get_stack_status (domain a);
            if negb ok then sys_exit 1 else mret tt
        end
  end.

(** [if __name__ == '__main__': main()]: the exit status of the process;
    an exception nobody caught is printed and gives status 1. *)
Definition script (a : args) (w : world) : Z * world :=
  match main a w with
  | (Return _, w') => (0%Z, w')
  | (SysExit code, w') => (code, w')
  | (Raise e, w') => (1%Z, say Traceback (str_exn e) w')
  end.

End Deployer.

(** ** Vocabulary of the properties *)

(** The validator lets the run go on, or ends it with exit status 1 after
    one error line. *)
Definition accepts (domain : string) (w : world) : Prop :=
  validate_domain domain w = (Return tt, w).

Definition rejects (domain : string) (w : world) : Prop :=
  validate_domain domain w =
  (SysExit 1, say Error ("Invalid domain name format: " +:+ domain) w).

(** The log of requests only grows under [m]. *)
Definition grows {A} (m : M A) : Prop :=
  forall w, api w `prefix_of` api (snd (m w)).

(** [m] never ends the process by itself. *)
Definition no_exit {A} (m : M A) : Prop :=
  forall w code w', m w <> (SysExit code, w').

(** [m] always returns. *)
Definition returns {A} (m : M A) : Prop :=
  forall w, exists a w', m w = (Return a, w').


(** *** Counting the polls of a waiter *)

Definition is_poll (c : call) : bool :=
  match c with WaiterPoll _ _ => true | _ => false end.

Definition poll_count (l : list call) : nat := length (List.filter is_poll l).

Definition sleeps (l : list call) : list nat :=
  flat_map (fun c => match c with Sleep s => [s] | _ => [] end) l.

(** [m] polls at most [n] times and only ever sleeps [delay] seconds. *)
Definition within (delay n : nat) (l : list call) : Prop :=
  (poll_count l <= n)%nat /\ Forall (fun s => s = delay) (sleeps l).

Definition budget {A} (delay n : nat) (m : M A) : Prop :=
  forall w, exists l, api (snd (m w)) = (api w ++ l)%list /\ within delay n l.





(** *** [main] in two parts

    What [main] does for each command once the domain is validated and the
    credentials are checked, and the world in which it starts doing it. *)
Definition run_command (svc : services) (a : args) (cmd : command_name) : M unit :=
  match cmd with
  | deploy =>
      deployed ← deploy_stack svc (domain a);
      if negb deployed then sys_exit 1
      else
        display_stack_info svc (domain a);;
        (if truthy (website_folder a) then
           uploaded ← upload_files svc (domain a) (default "" (website_folder a));
           if negb uploaded then sys_exit 1 else mret tt
         else
           print_info "No website folder specified, creating sample website...";;
           create_sample_website svc (domain a));;
        print "";;
        print_header "🎉 Deployment Complete!";;
        print "";;
        print_info "Next steps:";;
        print "1. Add the name servers to your domain registrar";;
        print "2. Wait 24-48 hours for DNS propagation";;
        print ("3. Visit https://" +:+ domain a +:+ " to see your website");;
        print ""
  | cleanup =>
      print_warning ("⚠️  WARNING: This will permanently delete all AWS resources for "
                     +:+ domain a);;
      print "";;
      print "This includes:";;
      print "• S3 buckets and all website files";;
      print "• CloudFront distribution";;
      print "• Route53 hosted zone";;
      print "• SSL certificate";;
      print "";;
      confirmation ← read_input svc "Are you sure you want to continue? (type 'yes' to confirm): ";
      if negb (String.eqb confirmation "yes") then
        print_info "Cleanup cancelled";;
        sys_exit 0
      else
        cleaned ← cleanup_stack svc (domain a);
        if negb cleaned then sys_exit 1
        else print_status "Cleanup completed!"
  | status =>
      ok ← get_stack_status svc (domain a);
      if negb ok then sys_exit 1 else mret tt
  end.

Definition greeted (identity : string * string) (w : world) : world :=
  say Info ("User/Role: " +:+ snd identity)
    (say Info ("Account ID: " +:+ fst identity)
       (say Status "AWS credentials validated"
          (log GetCallerIdentity
             (say Plain ""
                (say Header "AWS Static Website Deployer - Python Edition"
                   (say Plain "" w)))))).

(** *** Resources that are not there, and errors that are *)

(** [head_bucket] answers 404 for the bucket. *)
Definition bucket_missing (svc : services) (bucket : string) : Prop :=
  forall h, exists message operation retry,
    head_bucket svc h bucket = Some (ClientError "404" message operation retry).

(** [describe_stacks] answers with a client error that says the stack does
    not exist. *)
Definition stack_missing (svc : services) (name : string) : Prop :=
  forall h, exists e,
    describe_stacks svc h name = inl e /\ is_ClientError e = true /\
    PyStr.contains "does not exist" (str_exn e) = true.

(** The line the bucket loop prints for a client error [e]. *)
Definition bucket_report (bucket : string) (e : exn) : level * string :=
  if String.eqb (error_code e) "404"
  then (Info, "Bucket " +:+ bucket +:+ " does not exist")
  else (Warning, "Error emptying bucket " +:+ bucket +:+ ": " +:+ str_exn e).

(** Whatever the object store raises is a [ClientError]. *)
Definition s3_raises_client_errors (svc : services) : Prop :=
  (forall h bucket e, head_bucket svc h bucket = Some e -> is_ClientError e = true) /\
  (forall h bucket e, In (inl e) (list_objects_pages svc h bucket) -> is_ClientError e = true) /\
  (forall h bucket keys e, delete_objects svc h bucket keys = Some e -> is_ClientError e = true).

(** *** The uploads of a folder *)

(** The request [upload_one] sends for [file] of directory [root]. *)
Definition upload_call (svc : services) (domain folder_path root file : string) : call :=
  UploadFile (path_join root file) domain
    (PyStr.replace "\" "/" (relpath svc (path_join root file) folder_path))
    (get_content_type file).

(** The requests [upload_files] means to send for a walk, in order. *)
Definition planned_uploads (svc : services) (domain folder_path : string)
    (triples : list (string * list string * list string)) : list call :=
  flat_map (fun triple => upload_call svc domain folder_path (fst (fst triple)) <$> snd triple)
           triples.

Definition walked (w : world) (folder_path : string)
  : list (string * list string * list string) :=
  match fs w !! folder_path with Some n => walk folder_path n | None => [] end.

Definition upload_answer (svc : services) (h : list call) (c : call) : option exn :=
  match c with
  | UploadFile f b k t => upload_file svc h f b k t
  | _ => None
  end.

(** Sent one after the other from log [h], the uploads all succeed. *)
Fixpoint uploads_succeed (svc : services) (h : list call) (cs : list call) : Prop :=
  match cs with
  | [] => True
  | c :: rest => upload_answer svc h c = None /\ uploads_succeed svc (h ++ [c])%list rest
  end.

(** [m] sends the uploads [cs]: all of them when they succeed, and up to
    the first that fails otherwise, which it raises. *)
Definition performs (svc : services) (m : M unit) (cs : list call) : Prop :=
  forall w,
    (uploads_succeed svc (api w) cs ->
     exists w', m w = (Return tt, w') /\ api w' = (api w ++ cs)%list /\ fs w' = fs w) /\
    (forall pre c post e,
       cs = (pre ++ c :: post)%list -> uploads_succeed svc (api w) pre ->
       upload_answer svc (api w ++ pre)%list c = Some e ->
       exists w', m w = (Raise e, w') /\ api w' = (api w ++ pre ++ [c])%list /\ fs w' = fs w).

(** The distribution id [upload_files] reads off the answer of
    [describe_stacks]. *)
Definition distribution_of (answer : exn + list stack) : option string :=
  match answer with
  | inr (first :: _) => dict_get "CloudFrontDistributionId" (output_dict (default [] (Outputs first)))
  | _ => None
  end.

Definition uploads (l : list call) : list call :=
  List.filter (fun c => match c with UploadFile _ _ _ _ => true | _ => false end) l.




(** The world in which [create_sample_website] calls [upload_files]: the
    temporary directory holds the one page. *)
Definition staged (svc : services) (domain : string) (w : world) : world :=
  World (api w) (console w ++ [(Info, "Creating sample website...")])%list
        (<[mkdtemp svc (api w) := Dir [("index.html", File (html_content domain))]]> (fs w)).



Definition deletions (l : list call) : list call :=
  List.filter (fun c => match c with DeleteObjects _ _ => true | _ => false end) l.

Definition is_upload (c : call) : Prop := exists f b k t, c = UploadFile f b k t.

Definition invalidations (l : list call) : list call :=
  List.filter (fun c => match c with CreateInvalidation _ _ _ _ => true | _ => false end) l.

(** *** Services and worlds for the examples *)

Module Stub.

Definition stack_not_found (name : string) : exn :=
  ClientError "ValidationError" ("Stack with id " +:+ name +:+ " does not exist")
              "DescribeStacks" "".

Definition bucket_not_found : exn := ClientError "404" "Not Found" "HeadBucket" "".

Definition forbidden : exn := ClientError "403" "Forbidden" "HeadBucket" "".

(** An account that holds nothing: no stack, no bucket. *)
Definition nothing : services := {|
  new_session := None;
  get_caller_identity := fun _ => inr ("123456789012", "arn:aws:iam::123456789012:user/dev");
  describe_stacks := fun _ name => inl (stack_not_found name);
  create_stack := fun _ _ _ _ _ => None;
  update_stack := fun _ _ _ _ _ => None;
  delete_stack := fun _ _ => None;
  waiter_poll := fun _ _ _ => PollSuccess;
  upload_file := fun _ _ _ _ _ => None;
  create_invalidation := fun _ _ _ _ _ => None;
  head_bucket := fun _ _ => Some bucket_not_found;
  list_objects_pages := fun _ _ => [];
  delete_objects := fun _ _ _ => None;
  time_time := fun _ => 1700000000%Z;
  relpath := fun path start =>
    PyStr.slice_from path (Z.of_nat (String.length start) + 1);
  mkdtemp := fun _ => "/tmp/tmpk3x9";
  input := fun _ => "yes"
|}.

(** The same account behind a service whose waiters never see a terminal
    state. *)
Definition stuck : services := {|
  new_session := new_session nothing;
  get_caller_identity := get_caller_identity nothing;
  describe_stacks := describe_stacks nothing;
  create_stack := create_stack nothing;
  update_stack := update_stack nothing;
  delete_stack := delete_stack nothing;
  waiter_poll := fun _ _ _ => PollRetry;
  upload_file := upload_file nothing;
  create_invalidation := create_invalidation nothing;
  head_bucket := head_bucket nothing;
  list_objects_pages := list_objects_pages nothing;
  delete_objects := delete_objects nothing;
  time_time := time_time nothing;
  relpath := relpath nothing;
  mkdtemp := mkdtemp nothing;
  input := input nothing
|}.

(** An account whose stack is there and deletes well, and whose buckets
    refuse every request. *)
Definition locked_buckets : services := {|
  new_session := new_session nothing;
  get_caller_identity := get_caller_identity nothing;
  describe_stacks := fun _ _ => inr [Stack "CREATE_COMPLETE" "2024-01-01" None None];
  create_stack := create_stack nothing;
  update_stack := update_stack nothing;
  delete_stack := delete_stack nothing;
  waiter_poll := waiter_poll nothing;
  upload_file := upload_file nothing;
  create_invalidation := create_invalidation nothing;
  head_bucket := fun _ _ => Some forbidden;
  list_objects_pages := list_objects_pages nothing;
  delete_objects := delete_objects nothing;
  time_time := time_time nothing;
  relpath := relpath nothing;
  mkdtemp := mkdtemp nothing;
  input := input nothing
|}.


(** An account that may not describe its stacks. *)
Definition denied : services := {|
  new_session := new_session nothing;
  get_caller_identity := get_caller_identity nothing;
  describe_stacks := fun _ _ =>
    inl (ClientError "AccessDenied" "User is not authorized to perform: cloudformation:DescribeStacks"
                     "DescribeStacks" "");
  create_stack := create_stack nothing;
  update_stack := update_stack nothing;
  delete_stack := delete_stack nothing;
  waiter_poll := waiter_poll nothing;
  upload_file := upload_file nothing;
  create_invalidation := create_invalidation nothing;
  head_bucket := head_bucket nothing;
  list_objects_pages := list_objects_pages nothing;
  delete_objects := delete_objects nothing;
  time_time := time_time nothing;
  relpath := relpath nothing;
  mkdtemp := mkdtemp nothing;
  input := input nothing
|}.

(** An account whose stack is deployed, with a distribution. *)
Definition deployed : services := {|
  new_session := new_session nothing;
  get_caller_identity := get_caller_identity nothing;
  describe_stacks := fun _ _ =>
    inr [Stack "CREATE_COMPLETE" "2024-01-01" None
           (Some [("WebsiteURL", "https://example.com");
                  ("CloudFrontDistributionId", "E2QWRUHAPOMQZL")])];
  create_stack := create_stack nothing;
  update_stack := update_stack nothing;
  delete_stack := delete_stack nothing;
  waiter_poll := waiter_poll nothing;
  upload_file := upload_file nothing;
  create_invalidation := create_invalidation nothing;
  head_bucket := head_bucket nothing;
  list_objects_pages := list_objects_pages nothing;
  delete_objects := delete_objects nothing;
  time_time := time_time nothing;
  relpath := relpath nothing;
  mkdtemp := mkdtemp nothing;
  input := input nothing
|}.

(** The same account at a moment when describe-stacks is throttled. *)
Definition throttled : services := {|
  new_session := new_session deployed;
  get_caller_identity := get_caller_identity deployed;
  describe_stacks := fun _ _ =>
    inl (ClientError "Throttling" "Rate exceeded" "DescribeStacks" "");
  create_stack := create_stack deployed;
  update_stack := update_stack deployed;
  delete_stack := delete_stack deployed;
  waiter_poll := waiter_poll deployed;
  upload_file := upload_file deployed;
  create_invalidation := create_invalidation deployed;
  head_bucket := head_bucket deployed;
  list_objects_pages := list_objects_pages deployed;
  delete_objects := delete_objects deployed;
  time_time := time_time deployed;
  relpath := relpath deployed;
  mkdtemp := mkdtemp deployed;
  input := input deployed
|}.

(** The same, but the store refuses the style sheet. *)
Definition refusing_css : services := {|
  new_session := new_session deployed;
  get_caller_identity := get_caller_identity deployed;
  describe_stacks := describe_stacks deployed;
  create_stack := create_stack deployed;
  update_stack := update_stack deployed;
  delete_stack := delete_stack deployed;
  waiter_poll := waiter_poll deployed;
  upload_file := fun _ _ _ key _ =>
    if String.eqb key "style.css" then Some (OtherError "Failed to upload site/style.css")
    else None;
  create_invalidation := create_invalidation deployed;
  head_bucket := head_bucket deployed;
  list_objects_pages := list_objects_pages deployed;
  delete_objects := delete_objects deployed;
  time_time := time_time deployed;
  relpath := relpath deployed;
  mkdtemp := mkdtemp deployed;
  input := input deployed
|}.

Definition empty_world : world := World [] [] ∅.

(** A world with a small site in the folder [site]. *)
Definition site : node :=
  Dir [ ("index.html", File "<h1>hello</h1>");
        ("style.css", File "h1 { color: red }");
        ("img", Dir [("logo.png", File "PNG")]) ].

Definition site_world : world := World [] [] {[ "site" := site ]}.

End Stub.

(** * Properties *)

Local Open Scope list_scope.

(** ** Regular-expression matching *)

Module ReFacts.
Import Re.

Lemma match_here_nil s : match_here s [] = at_end s.
Proof. destruct s; reflexivity. Qed.

Lemma match_here_cons s q rest :
  match_here s (q :: rest) =
  ((lo q =? 0)%nat && match_here s rest)
  || match s with
     | c :: s' => in_class (cls q) c && may_repeat q && match_here s' (consumed q :: rest)
     | [] => false
     end.
Proof. destruct s; reflexivity. Qed.

Lemma may_repeat_bound q n :
  may_repeat q = true ->
  match hi (consumed q) with Some h => (n <= h)%nat | None => True end ->
  match hi q with Some h => (S n <= h)%nat | None => True end.
Proof.
  unfold may_repeat, consumed; simpl.
  destruct (hi q) as [[|h]|]; simpl; intros; try discriminate; auto; lia.
Qed.

Lemma match_here_sound s : forall q rest,
  match_here s (q :: rest) = true ->
  exists pre post, s = pre ++ post /\ in_bounds q (length pre) /\
    Forall (fun c => in_class (cls q) c = true) pre /\ match_here post rest = true.
Proof.
  induction s as [|c s IH]; intros q rest; rewrite match_here_cons; intros H.
  - rewrite orb_false_r in H. apply andb_prop in H as [Hlo Hrest].
    apply Nat.eqb_eq in Hlo. exists [], []. repeat split; simpl; auto; try lia.
    destruct (hi q); auto; lia.
  - apply orb_prop in H as [H|H].
    + apply andb_prop in H as [Hlo Hrest]. apply Nat.eqb_eq in Hlo.
      exists [], (c :: s). repeat split; simpl; auto; try lia.
      destruct (hi q); auto; lia.
    + apply andb_prop in H as [H Hm]. apply andb_prop in H as [Hc Hrep].
      destruct (IH _ _ Hm) as (pre & post & -> & [Hlo Hhi] & Hall & Hpost).
      exists (c :: pre), post. repeat split; simpl; auto.
      * simpl in Hlo. lia.
      * apply may_repeat_bound; assumption.
Qed.

Lemma match_here_complete pre : forall q rest post,
  in_bounds q (length pre) ->
  Forall (fun c => in_class (cls q) c = true) pre ->
  match_here post rest = true ->
  match_here (pre ++ post) (q :: rest) = true.
Proof.
  induction pre as [|c pre IH]; intros q rest post [Hlo Hhi] Hall Hpost;
    rewrite match_here_cons.
  - simpl in *. assert (lo q = 0)%nat as -> by lia. simpl. rewrite Hpost. reflexivity.
  - simpl. inversion Hall as [|? ? Hc Hall']; subst. rewrite Hc. simpl in Hhi, Hlo.
    assert (may_repeat q = true) as Hrep.
    { unfold may_repeat. destruct (hi q) as [[|h]|]; auto; lia. }
    rewrite Hrep. simpl. rewrite IH; auto using orb_true_r.
    split; simpl; [lia|]. destruct (hi q) as [h|]; simpl; auto; lia.
Qed.

Lemma match_here_matches p : forall s, match_here s p = true <-> matches p s.
Proof.
  induction p as [|q rest IH]; intros s; simpl.
  - rewrite match_here_nil. reflexivity.
  - split.
    + intros H. apply match_here_sound in H as (pre & post & -> & Hb & Hall & Hpost).
      exists pre, post. rewrite <- IH. auto.
    + intros (pre & post & -> & Hb & Hall & Hpost).
      apply match_here_complete; auto. apply IH, Hpost.
Qed.

Lemma at_end_spec s : at_end s = true <-> s = [] \/ s = [PyStr.LF].
Proof.
  destruct s as [|c [|d s]]; simpl; split; auto; try (intros [|]; discriminate).
  - intros H. apply Ascii.eqb_eq in H. subst; auto.
  - intros [|H]; [discriminate|]. injection H as ->. reflexivity.
  - discriminate.
Qed.

End ReFacts.

(** ** Strings as lists of characters *)

Lemma chars_app a b : PyStr.chars (a +:+ b) = PyStr.chars a ++ PyStr.chars b.
Proof. induction a as [|c a IH]; simpl; [reflexivity|]. f_equal. apply IH. Qed.

Lemma chars_of_chars l : PyStr.chars (PyStr.of_chars l) = l.
Proof. apply list_ascii_of_string_of_list_ascii. Qed.

Lemma of_chars_chars s : PyStr.of_chars (PyStr.chars s) = s.
Proof. apply string_of_list_ascii_of_string. Qed.

Lemma length_chars s : String.length s = length (PyStr.chars s).
Proof. induction s as [|c s IH]; simpl; congruence. Qed.

Lemma chars_inj a b : PyStr.chars a = PyStr.chars b -> a = b.
Proof. intros H. rewrite <- (of_chars_chars a), <- (of_chars_chars b), H. reflexivity. Qed.

Lemma append_cons c a b : (String c a +:+ b) = String c (a +:+ b).
Proof. reflexivity. Qed.

Lemma rfind_from_absent x s : forall i found,
  ~ In x (PyStr.chars s) -> PyStr.rfind_from x s i found = found.
Proof.
  induction s as [|c s IH]; intros i found Hno; simpl; [reflexivity|].
  simpl in Hno. destruct (Ascii.eqb_spec c x) as [->|Hne]; [tauto|].
  apply IH. tauto.
Qed.

Lemma rfind_from_last x a b : forall i found,
  ~ In x (PyStr.chars b) ->
  PyStr.rfind_from x (a +:+ String x b) i found = (i + Z.of_nat (String.length a))%Z.
Proof.
  induction a as [|c a IH]; intros i found Hno.
  - change (EmptyString +:+ String x b) with (String x b). simpl.
    rewrite Ascii.eqb_refl, rfind_from_absent by exact Hno. lia.
  - rewrite append_cons. simpl PyStr.rfind_from. rewrite IH by exact Hno.
    simpl String.length. lia.
Qed.

Lemma substring_skip a b n :
  String.substring (String.length a) n (a +:+ b) = String.substring 0 n b.
Proof.
  induction a as [|c a IH]; [reflexivity|]. rewrite append_cons. simpl. exact IH.
Qed.

Lemma substring_all s : String.substring 0 (String.length s) s = s.
Proof. induction s as [|c s IH]; simpl; [reflexivity|]. rewrite IH. reflexivity. Qed.

Lemma substring_take a b :
  String.substring 0 (String.length a) (a +:+ b) = a.
Proof.
  induction a as [|c a IH]; [destruct b; reflexivity|].
  rewrite append_cons. simpl. rewrite IH. reflexivity.
Qed.

Lemma length_append a b : String.length (a +:+ b) = (String.length a + String.length b)%nat.
Proof. induction a as [|c a IH]; [reflexivity|]. rewrite append_cons. simpl. lia. Qed.

(** ** The domain pattern *)

Lemma domain_shape_chars lo hi s : domain_shape lo hi s <-> shape_chars lo hi (PyStr.chars s).
Proof.
  split.
  - intros (label & tld & -> & Hl & Ht). exists (PyStr.chars label), (PyStr.chars tld).
    split; [rewrite !chars_app; reflexivity|auto].
  - intros (label & tld & Hs & Hl & Ht).
    exists (PyStr.of_chars label), (PyStr.of_chars tld). rewrite !chars_of_chars.
    split; [|split; assumption].
    apply chars_inj. rewrite !chars_app, !chars_of_chars. exact Hs.
Qed.

Lemma alnum_hyphen_split c :
  Re.in_class alnum_hyphen c = Re.in_class alnum c || Ascii.eqb "-" c.
Proof.
  unfold Re.in_class, alnum_hyphen. rewrite existsb_app. cbn [existsb Re.in_range].
  rewrite orb_false_r. reflexivity.
Qed.

Lemma alnum_not_hyphen c : Re.in_class alnum c = true -> c <> "-"%char.
Proof. intros H ->. discriminate H. Qed.

Lemma alnum_is_alnum_hyphen c : Re.in_class alnum c = true -> Re.in_class alnum_hyphen c = true.
Proof. intros H. rewrite alnum_hyphen_split, H. reflexivity. Qed.

Lemma alnum_hyphen_not_hyphen c :
  Re.in_class alnum_hyphen c = true -> c <> "-"%char -> Re.in_class alnum c = true.
Proof.
  rewrite alnum_hyphen_split. intros H Hne. apply orb_prop in H as [H|H]; [exact H|].
  apply Ascii.eqb_eq in H. congruence.
Qed.

Lemma dot_class c : Re.in_class [Re.Chr "."] c = true <-> c = "."%char.
Proof.
  unfold Re.in_class; cbn [existsb Re.in_range].
  rewrite orb_false_r, Ascii.eqb_eq. split; congruence.
Qed.

Lemma length_one {A} (l : list A) : length l = 1%nat -> exists x, l = [x].
Proof. destruct l as [|x [|y l]]; simpl; intros; try discriminate. eauto. Qed.

(** The strings the pattern matches up to [$]: a label of 3 to 63
    characters, a dot, a top-level domain. *)
Lemma matches_domain_pattern l :
  Re.matches domain_pattern l <->
  exists core tail, l = core ++ tail /\ shape_chars 3 63 core /\ Re.at_end tail = true.
Proof.
  unfold domain_pattern, Re.matches, Re.in_bounds, Re.once; simpl. split.
  - intros (p1 & r1 & -> & [L1 H1] & A1 & p2 & r2 & -> & [L2 H2] & A2 &
            p3 & r3 & -> & [L3 H3] & A3 & p4 & r4 & -> & [L4 H4] & A4 &
            p5 & r5 & -> & [L5 _] & A5 & Hend).
    destruct (length_one p1) as [a ->]; [lia|].
    destruct (length_one p3) as [b ->]; [lia|].
    destruct (length_one p4) as [d ->]; [lia|].
    apply Forall_inv in A4. apply dot_class in A4. subst d.
    apply Forall_inv in A1. apply Forall_inv in A3.
    exists ((a :: p2 ++ [b]) ++ "."%char :: p5), r5. split; [|split].
    + simpl. rewrite <- !app_assoc. reflexivity.
    + exists (a :: p2 ++ [b]), p5. split; [reflexivity|]. split; [|split; assumption].
      split; [|split; [|split]].
      * simpl. rewrite length_app. simpl. lia.
      * constructor; [apply alnum_is_alnum_hyphen, A1|].
        apply Forall_app. split; [exact A2|].
        constructor; [apply alnum_is_alnum_hyphen, A3|constructor].
      * simpl. intros [= ->]. discriminate A1.
      * rewrite app_comm_cons, last_snoc. intros [= ->]. discriminate A3.
    + exact Hend.
  - intros (core & tail & -> & (label & tld & -> & (Hlen & Hall & Hhd & Hlast) & Ht1 & Ht2) & Hend).
    destruct label as [|a label]; [simpl in Hlen; lia|].
    destruct (exists_last (l := label)) as (mid & b & ->).
    { intros ->. simpl in Hlen. lia. }
    simpl in Hlen. rewrite length_app in Hlen. simpl in Hlen.
    rewrite app_comm_cons, last_snoc in Hlast. simpl in Hhd.
    assert (a <> "-"%char) as Hna by congruence.
    assert (b <> "-"%char) as Hnb by congruence.
    inversion Hall as [|? ? Ha Hall']; subst.
    apply Forall_app in Hall' as [Hmid Hb]. apply Forall_inv in Hb.
    exists [a], (mid ++ [b] ++ ["."%char] ++ tld ++ tail). split; [|split; [|split]].
    + simpl. rewrite <- !app_assoc. reflexivity.
    + simpl; lia.
    + constructor; [|constructor]. apply alnum_hyphen_not_hyphen; assumption.
    + exists mid, ([b] ++ ["."%char] ++ tld ++ tail). split; [reflexivity|].
      split; [lia|]. split; [exact Hmid|].
      exists [b], (["."%char] ++ tld ++ tail). split; [reflexivity|].
      split; [simpl; lia|]. split.
      { constructor; [|constructor]. apply alnum_hyphen_not_hyphen; assumption. }
      exists ["."%char], (tld ++ tail). split; [reflexivity|].
      split; [simpl; lia|]. split; [constructor; [reflexivity|constructor]|].
      exists tld, tail. auto.
Qed.

(** The validator's test, for every input: the shape, possibly followed by
    one line feed, which [$] lets through. *)
Lemma domain_ok_spec s :
  domain_ok s = true <->
  exists core tail, PyStr.chars s = core ++ tail /\ shape_chars 3 63 core /\
                    (tail = [] \/ tail = [PyStr.LF]).
Proof.
  unfold domain_ok, Re.re_match.
  rewrite ReFacts.match_here_matches, matches_domain_pattern.
  split; intros (core & tail & H1 & H2 & H3); exists core, tail;
    (split; [exact H1|split; [exact H2|apply ReFacts.at_end_spec, H3]]).
Qed.

Lemma shape_chars_no_LF lo hi core : shape_chars lo hi core -> last core <> Some PyStr.LF.
Proof.
  intros (label & tld & -> & _ & Hlen & Hall).
  destruct (exists_last (l := tld)) as (t & c & ->).
  { intros ->. simpl in Hlen. lia. }
  apply Forall_app in Hall as [_ Hc]. apply Forall_inv in Hc.
  rewrite app_comm_cons, app_assoc, last_snoc. intros [= ->]. discriminate Hc.
Qed.

Lemma domain_ok_shape s :
  last (PyStr.chars s) <> Some PyStr.LF ->
  (domain_ok s = true <-> domain_shape 3 63 s).
Proof.
  intros Hlast. rewrite domain_ok_spec, domain_shape_chars. split.
  - intros (core & tail & Hs & Hshape & [-> | ->]).
    + rewrite app_nil_r in Hs. rewrite Hs. exact Hshape.
    + rewrite Hs, last_snoc in Hlast. congruence.
  - intros H. exists (PyStr.chars s), []. rewrite app_nil_r. auto.
Qed.

(** ** Domain validation *)

Lemma validate_domain_run domain w :
  (domain_ok domain = true /\ accepts domain w) \/
  (domain_ok domain = false /\ rejects domain w).
Proof.
  unfold accepts, rejects, validate_domain.
  destruct (domain_ok domain); [left|right]; split; reflexivity.
Qed.

Lemma accepts_iff domain w : accepts domain w <-> domain_ok domain = true.
Proof.
  destruct (validate_domain_run domain w) as [[Hok H]|[Hok H]];
    split; auto; congruence.
Qed.

Lemma rejects_iff domain w : rejects domain w <-> domain_ok domain = false.
Proof.
  destruct (validate_domain_run domain w) as [[Hok H]|[Hok H]];
    split; auto; congruence.
Qed.

(** C1, as the code has it. For every input that does not end in a line
    feed, the validator lets the run go on exactly when the input is a label
    of 3 to 63 letters, digits and hyphens that neither starts nor ends with
    a hyphen, then a dot, then two or more letters; otherwise the run ends
    with exit status 1. It accepts example.com and my-site.co and rejects
    -bad.com, bad-.com, nodot and a.c. *)
Theorem validate_domain_shape (domain : string) (w : world) :
  last (PyStr.chars domain) <> Some PyStr.LF ->
  (accepts domain w <-> domain_shape 3 63 domain) /\
  (rejects domain w <-> ~ domain_shape 3 63 domain) /\
  accepts "example.com" w /\ accepts "my-site.co" w /\
  rejects "-bad.com" w /\ rejects "bad-.com" w /\
  rejects "nodot" w /\ rejects "a.c" w.
Proof.
  intros Hlast. pose proof (domain_ok_shape domain Hlast) as Hshape.
  split; [|split].
  - rewrite accepts_iff. exact Hshape.
  - rewrite rejects_iff, <- Hshape. destruct (domain_ok domain); split; congruence.
  - repeat split; first [apply accepts_iff | apply rejects_iff]; reflexivity.
Qed.

Lemma validate_domain_shape_witness :
  accepts "example.com" Stub.empty_world <-> domain_shape 3 63 "example.com".
Proof.
  apply (validate_domain_shape "example.com" Stub.empty_world).
  vm_compute. discriminate.
Defined.

(** C1, as the specification words it, fails: a label of two characters has
    the shape the specification gives, and the validator ends the run. *)
Lemma label_of_two_rejected :
  spec_domain_shape "ab.com" /\ rejects "ab.com" Stub.empty_world.
Proof.
  split.
  - exists "ab", "com". split; [reflexivity|]. split.
    + repeat split; simpl; try lia; try discriminate. repeat constructor.
    + split; simpl; [lia|repeat constructor].
  - apply rejects_iff. reflexivity.
Qed.

(** An input that ends in a line feed passes when the rest has the shape:
    [$] lets one line feed through. *)
Lemma trailing_line_feed_accepted w :
  accepts ("example.com" +:+ String PyStr.LF EmptyString) w.
Proof. apply accepts_iff. reflexivity. Qed.

(** ** Stack names *)

Lemma replace_dots domain :
  PyStr.replace "." "-" domain = PyStr.of_chars (dots_to_hyphens (PyStr.chars domain)).
Proof.
  induction domain as [|c rest IH]; simpl; [reflexivity|].
  rewrite IH. destruct (Ascii.eqb c "."); reflexivity.
Qed.

(** C9. For every domain, the stack name is [website-] followed by the
    domain with every dot replaced by a hyphen, character by character;
    example.com gives website-example-com. *)
Theorem get_stack_name_spec :
  (forall domain, get_stack_name domain = spec_stack_name domain) /\
  (forall domain, String.length (get_stack_name domain) = (8 + String.length domain)%nat) /\
  (forall domain, ~ In "."%char (PyStr.chars (get_stack_name domain))) /\
  get_stack_name "example.com" = "website-example-com".
Proof.
  assert (forall domain, get_stack_name domain = spec_stack_name domain) as Hspec.
  { intros domain. unfold get_stack_name, spec_stack_name. rewrite replace_dots. reflexivity. }
  split; [exact Hspec|]. split; [|split; [|reflexivity]].
  - intros domain. rewrite Hspec, length_chars. unfold spec_stack_name, dots_to_hyphens.
    rewrite chars_app, chars_of_chars, length_app, length_map, <- !length_chars.
    reflexivity.
  - intros domain. rewrite Hspec. unfold spec_stack_name. rewrite chars_app, chars_of_chars.
    rewrite in_app_iff. intros [H|H].
    + simpl in H. repeat (destruct H as [H|H]; [discriminate H|]). exact H.
    + unfold dots_to_hyphens in H. apply in_map_iff in H as (c & Hc & _).
      destruct (Ascii.eqb c ".") eqn:E; [discriminate Hc|].
      subst c. discriminate E.
Qed.

(** ** Content types *)

Lemma skip_leading_dots_S fuel p i d :
  skip_leading_dots (S fuel) p i d =
  if (i <? d)%Z then
    if negb (String.eqb (PyStr.slice p i (i + 1)) ".") then true
    else skip_leading_dots fuel p (i + 1) d
  else false.
Proof. reflexivity. Qed.

Lemma substring_none s : String.substring 0 0 s = EmptyString.
Proof. destruct s; reflexivity. Qed.

(** A plain file name: a stem that starts with no dot, a dot, an extension
    without dots, and no slash anywhere. *)
Lemma splitext_plain c stem e :
  c <> "."%char ->
  ~ In "/"%char (PyStr.chars (String c stem +:+ "." +:+ e)) ->
  ~ In "."%char (PyStr.chars e) ->
  splitext (String c stem +:+ "." +:+ e) = (String c stem, "." +:+ e).
Proof.
  intros Hc Hslash Hdot. unfold splitext, PyStr.rfind.
  rewrite (rfind_from_absent "/"%char) by exact Hslash.
  change ("." +:+ e) with (String "."%char e).
  rewrite rfind_from_last by exact Hdot.
  set (n := String.length (String c stem)).
  replace (0 + Z.of_nat n >? -1)%Z with true by (symmetry; apply Z.gtb_lt; lia).
  assert (skip_leading_dots (Z.to_nat (0 + Z.of_nat n - -1))
            (String c stem +:+ String "."%char e) (-1 + 1) (0 + Z.of_nat n) = true) as ->.
  { replace (Z.to_nat (0 + Z.of_nat n - -1)) with (S n) by lia.
    rewrite skip_leading_dots_S.
    replace (-1 + 1 <? 0 + Z.of_nat n)%Z with true
      by (symmetry; apply Z.ltb_lt; unfold n; simpl String.length; lia).
    unfold PyStr.slice. rewrite append_cons.
    change (Z.to_nat (-1 + 1)) with 0%nat. change (Z.to_nat (-1 + 1 + 1 - (-1 + 1))) with 1%nat.
    cbn [String.substring]. rewrite substring_none.
    destruct (String.eqb_spec (String c EmptyString) ".") as [H|H]; [congruence|reflexivity]. }
  simpl andb. cbv iota. unfold PyStr.slice, PyStr.slice_from. f_equal.
  - replace (Z.to_nat (0 + Z.of_nat n - 0)) with n by lia. simpl Z.to_nat.
    apply substring_take.
  - replace (Z.to_nat (0 + Z.of_nat n)) with n by lia.
    rewrite length_append. unfold n. rewrite substring_skip.
    replace (String.length (String c stem) + String.length (String "."%char e)
             - String.length (String c stem))%nat
      with (String.length (String "."%char e)) by lia.
    apply substring_all.
Qed.

Lemma lower_append a b : PyStr.lower (a +:+ b) = PyStr.lower a +:+ PyStr.lower b.
Proof.
  induction a as [|c a IH]; [reflexivity|].
  rewrite append_cons. simpl. rewrite IH. reflexivity.
Qed.


(** C8. The content type is read off the extension through the fixed
    table, for every file name: the table's entry when the extension is a
    key, the generic binary type otherwise. The extension is what
    [os.path.splitext] cuts off, in lower case: for a plain name, the last
    dot and what follows it. index.html gives text/html, style.css gives
    text/css, photo.unknownext the generic binary type. *)
Theorem get_content_type_table :
  (forall filename,
     get_content_type filename =
     match content_types !! file_ext filename with
     | Some content_type => content_type
     | None => "binary/octet-stream"
     end) /\
  (forall ext content_type,
     content_types !! ext = Some content_type <->
     In (ext, content_type)
        [ (".html", "text/html"); (".css", "text/css");
          (".js", "application/javascript"); (".json", "application/json");
          (".png", "image/png"); (".jpg", "image/jpeg"); (".jpeg", "image/jpeg");
          (".gif", "image/gif"); (".svg", "image/svg+xml"); (".ico", "image/x-icon");
          (".pdf", "application/pdf"); (".txt", "text/plain");
          (".xml", "application/xml") ]) /\
  (forall c stem e,
     c <> "."%char ->
     ~ In "/"%char (PyStr.chars (String c stem +:+ "." +:+ e)) ->
     ~ In "."%char (PyStr.chars e) ->
     file_ext (String c stem +:+ "." +:+ e) = "." +:+ PyStr.lower e) /\
  file_ext "index.html" = ".html" /\ get_content_type "index.html" = "text/html" /\
  file_ext "style.css" = ".css" /\ get_content_type "style.css" = "text/css" /\
  file_ext "photo.unknownext" = ".unknownext" /\
  get_content_type "photo.unknownext" = "binary/octet-stream".
Proof.
  split; [|split; [|split]].
  - intros filename. unfold get_content_type. destruct (content_types !! _); reflexivity.
  - intros ext content_type. unfold content_types.
    rewrite <- list_elem_of_In, elem_of_list_to_map; [reflexivity|].
    apply (bool_decide_unpack _). vm_compute. exact I.
  - intros c stem e Hc Hslash Hdot. unfold file_ext.
    rewrite splitext_plain by assumption. cbn [snd].
    rewrite lower_append. reflexivity.
  - repeat split; vm_compute; reflexivity.
Qed.

Lemma get_content_type_table_witness :
  file_ext (String "i" "ndex" +:+ "." +:+ "html") = "." +:+ PyStr.lower "html".
Proof.
  apply (proj1 (proj2 (proj2 get_content_type_table))).
  - discriminate.
  - vm_compute. intuition discriminate.
  - vm_compute. intuition discriminate.
Defined.

(** ** Running the program: equations of the effects *)

Lemma bind_run {A B} (m : M A) (f : A -> M B) w :
  (m ≫= f) w =
  match m w with
  | (Return a, w') => f a w'
  | (Raise e, w') => (Raise e, w')
  | (SysExit c, w') => (SysExit c, w')
  end.
Proof. reflexivity. Qed.

Lemma ret_run {A} (a : A) w : mret (M := M) a w = (Return a, w).
Proof. reflexivity. Qed.

Lemma try_run {A} (body : M A) catches handler w :
  try_except body catches handler w =
  match body w with
  | (Raise e, w') => if catches e then handler e w' else (Raise e, w')
  | r => r
  end.
Proof. reflexivity. Qed.

Lemma print_run l message w : print_line l message w = (Return tt, say l message w).
Proof. reflexivity. Qed.

Lemma request_run {R} (c : call) (answer : list call -> exn + R) w :
  request c answer w =
  match answer (api w) with
  | inl e => (Raise e, log c w)
  | inr r => (Return r, log c w)
  end.
Proof. reflexivity. Qed.

Lemma read_input_run svc prompt w : read_input svc prompt w = (Return (input svc (api w)), w).
Proof. reflexivity. Qed.

Lemma api_say l message w : api (say l message w) = api w.
Proof. reflexivity. Qed.

Lemma api_log c w : api (log c w) = api w ++ [c].
Proof. reflexivity. Qed.

Lemma console_say l message w : console (say l message w) = console w ++ [(l, message)].
Proof. reflexivity. Qed.

Lemma console_log c w : console (log c w) = console w.
Proof. reflexivity. Qed.

Lemma fs_say l message w : fs (say l message w) = fs w.
Proof. reflexivity. Qed.

Lemma fs_log c w : fs (log c w) = fs w.
Proof. reflexivity. Qed.

Ltac world := rewrite ?api_say, ?api_log, ?console_say, ?console_log, ?fs_say, ?fs_log.

(** One step of symbolic execution: unfold the sequencing at the head and
    run the prints. *)
Ltac run :=
  repeat (rewrite ?bind_run, ?try_run, ?ret_run;
          unfold print_status, print_info, print_warning, print_error, print_header, print,
            is_Exception, sys_exit, raise;
          rewrite ?print_run, ?read_input_run; cbv beta iota; cbn [is_ClientError is_NoCredentialsError negb]).

(** ** The log of requests only grows *)

Lemma grows_ret {A} (a : A) : grows (mret a).
Proof. intros w. reflexivity. Qed.

Lemma grows_raise {A} e : grows (raise (A := A) e).
Proof. intros w. reflexivity. Qed.

Lemma grows_sys_exit {A} c : grows (sys_exit (A := A) c).
Proof. intros w. reflexivity. Qed.

Lemma grows_print l message : grows (print_line l message).
Proof. intros w. reflexivity. Qed.

Lemma grows_request {R} c (answer : list call -> exn + R) : grows (request c answer).
Proof.
  intros w. rewrite request_run. destruct (answer (api w)); simpl; apply prefix_app_r; reflexivity.
Qed.

Lemma grows_bind {A B} (m : M A) (f : A -> M B) :
  grows m -> (forall a, grows (f a)) -> grows (m ≫= f).
Proof.
  intros Hm Hf w. rewrite bind_run. specialize (Hm w).
  destruct (m w) as [[a|e|c] w']; simpl in *; auto.
  etransitivity; [exact Hm|apply Hf].
Qed.

Lemma grows_try {A} (body : M A) catches handler :
  grows body -> (forall e, grows (handler e)) -> grows (try_except body catches handler).
Proof.
  intros Hm Hh w. rewrite try_run. specialize (Hm w).
  destruct (body w) as [[a|e|c] w']; simpl in *; auto.
  destruct (catches e); simpl; auto. etransitivity; [exact Hm|apply Hh].
Qed.

Lemma grows_for_each {A} (xs : list A) (body : A -> M unit) :
  (forall x, grows (body x)) -> grows (for_each xs body).
Proof.
  intros Hb. induction xs as [|x xs IH]; simpl.
  - apply grows_ret.
  - apply grows_bind; auto.
Qed.

Lemma grows_wait_loop svc w name delay remaining :
  grows (wait_loop svc w name delay remaining).
Proof.
  induction remaining as [|n IH]; simpl.
  - apply grows_bind; [apply grows_request|].
    intros [| | |]; auto using grows_ret, grows_raise.
  - apply grows_bind; [apply grows_request|].
    intros [| | |]; auto using grows_ret, grows_raise.
    apply grows_bind; [apply grows_request|]. intros _. exact IH.
Qed.

Lemma grows_waiter_wait svc w name delay attempts :
  grows (waiter_wait svc w name delay attempts).
Proof. apply grows_wait_loop. Qed.

(** Whatever a guarded sequence goes on to do, the requests of its first
    part stay in the log. *)
Lemma try_bind_grows {A B} (m : M A) (k : A -> M B) catches handler w :
  (forall a, grows (k a)) -> (forall e, grows (handler e)) ->
  api (snd (m w)) `prefix_of` api (snd (try_except (m ≫= k) catches handler w)).
Proof.
  intros Hk Hh. rewrite try_run, bind_run.
  destruct (m w) as [[a|e|c] w1]; simpl.
  - specialize (Hk a w1). destruct (k a w1) as [[b|e|c] w2]; simpl in *; auto.
    destruct (catches e); simpl; auto. etransitivity; [exact Hk|apply Hh].
  - destruct (catches e); simpl; [apply Hh|reflexivity].
  - reflexivity.
Qed.

Ltac grows :=
  repeat first
    [ apply grows_waiter_wait | apply grows_request | apply grows_print
    | apply grows_ret | apply grows_raise | apply grows_sys_exit
    | apply grows_bind; [|intros ?]
    | apply grows_try; [|intros ?]
    | apply grows_for_each; intros ?
    | match goal with |- grows (if ?b then _ else _) => destruct b end
    | match goal with |- grows (match ?x with _ => _ end) => destruct x end ].

(** ** The existence probe of [deploy_stack] *)

(** What follows the submission in [deploy_stack]. *)
Lemma grows_after_submission svc (op : operation) name :
  grows (print_info "Waiting for stack operation to complete...";;
         print_warning "This may take 10-15 minutes for SSL certificate validation...";;
         waiter_wait svc match op with
                         | CREATE => stack_create_complete
                         | UPDATE => stack_update_complete
                         end name 30 120;;
         print_status "Infrastructure deployed successfully";;
         mret true).
Proof. unfold print_info, print_warning, print_status. grows. Qed.

(** C4. [deploy_stack] first describes the stack by its derived name. When
    the answer is a client error whose text holds "does not exist", the next
    request is create-stack with the template and the domain parameter; when
    the describe succeeds, the next request is update-stack; on any other
    error nothing more is sent and [deploy_stack] reports failure. *)
Theorem deploy_stack_probe (svc : services) (domain : string) (w : world) :
  let name := get_stack_name domain in
  let submit (c : string -> string -> list (string * string) -> list string -> call) :=
    c name get_cloudformation_template [("DomainName", domain)] ["CAPABILITY_IAM"] in
  match describe_stacks svc (api w) name with
  | inr _ =>
      exists rest, api (snd (deploy_stack svc domain w)) =
                   api w ++ DescribeStacks name :: submit UpdateStack :: rest
  | inl e =>
      if is_ClientError e && PyStr.contains "does not exist" (str_exn e)
      then exists rest, api (snd (deploy_stack svc domain w)) =
                        api w ++ DescribeStacks name :: submit CreateStack :: rest
      else deploy_stack svc domain w =
           (Return false,
            say Error ("Stack deployment failed: " +:+ str_exn e)
              (log (DescribeStacks name)
                 (say Header ("Deploying AWS Infrastructure for " +:+ domain +:+ "...") w)))
  end.
Proof.
  intros name submit.
  set (result := deploy_stack svc domain w).
  assert (result = deploy_stack svc domain w) as Hrun by reflexivity.
  unfold deploy_stack in Hrun. fold name in Hrun.
  rewrite bind_run in Hrun. unfold print_header in Hrun. rewrite print_run in Hrun.
  cbv beta iota in Hrun.
  set (w0 := say Header _ w) in Hrun.
  match type of Hrun with
  | context [try_except (?m ≫= ?k) ?c ?h w0] =>
      pose proof (try_bind_grows m k c h w0) as Hgrow; set (inner := m) in *
  end.
  rewrite <- Hrun in Hgrow.
  destruct (describe_stacks svc (api w) name) as [e|stacks] eqn:Hprobe.
  - destruct (is_ClientError e && PyStr.contains "does not exist" (str_exn e)) eqn:Hcase.
    + apply andb_prop in Hcase as [Hc Hd].
      assert (exists o, inner w0 = (o, log (submit CreateStack) (say Info "Creating new stack..."
                                        (log (DescribeStacks name) w0)))) as [o Hin].
      { unfold inner. rewrite try_run, bind_run.
        unfold cloudformation_describe_stacks. rewrite request_run.
        change (api w0) with (api w). rewrite Hprobe.
        cbv beta iota. rewrite Hc, Hd. run.
        unfold cloudformation_create_stack. rewrite request_run.
        destruct (raises _); run; eauto. }
      rewrite Hin in Hgrow. destruct Hgrow as [rest Hrest].
      * intros op. apply grows_after_submission.
      * intros e'. unfold print_error. grows.
      * exists rest. rewrite Hrest. simpl. rewrite <- !app_assoc. reflexivity.
    + rewrite Hrun, try_run, bind_run. unfold inner. rewrite try_run, bind_run.
      unfold cloudformation_describe_stacks. rewrite request_run.
      change (api w0) with (api w). rewrite Hprobe.
      cbv beta iota.
      destruct (is_ClientError e); simpl in Hcase; [rewrite Hcase|]; run; reflexivity.
  - assert (exists o rest0 w1, inner w0 = (o, w1) /\
              api w1 = api w ++ DescribeStacks name :: submit UpdateStack :: rest0)
      as (o & rest0 & w1 & Hin & Hw1).
    { unfold inner. rewrite try_run, bind_run.
      unfold cloudformation_describe_stacks. rewrite request_run.
      change (api w0) with (api w). rewrite Hprobe. run.
      unfold cloudformation_update_stack. rewrite request_run.
      destruct (raises _) as [e|[]]; run.
      - destruct (is_ClientError e); [|eexists _, [], _; split; [reflexivity|]].
        + destruct (PyStr.contains _ _); run.
          * unfold cloudformation_create_stack. rewrite request_run.
            destruct (raises _); run;
              (eexists _, [_], _; split; [reflexivity|]);
              simpl; rewrite <- !app_assoc; reflexivity.
          * eexists _, [], _; split; [reflexivity|].
            simpl; rewrite <- !app_assoc; reflexivity.
        + simpl; rewrite <- !app_assoc; reflexivity.
      - eexists _, [], _; split; [reflexivity|].
        simpl; rewrite <- !app_assoc; reflexivity. }
    rewrite Hin in Hgrow. destruct Hgrow as [rest Hrest].
    + intros op. apply grows_after_submission.
    + intros e'. unfold print_error. grows.
    + exists (rest0 ++ rest). rewrite Hrest. simpl. rewrite Hw1, <- !app_assoc. reflexivity.
Qed.

(** ** Outcomes: what always returns, always raises, never exits *)

Lemma no_exit_ret {A} (a : A) : no_exit (mret a).
Proof. intros w c w'. rewrite ret_run. discriminate. Qed.

Lemma no_exit_raise {A} e : no_exit (raise (A := A) e).
Proof. intros w c w'. unfold raise. discriminate. Qed.

Lemma no_exit_print l message : no_exit (print_line l message).
Proof. intros w c w'. rewrite print_run. discriminate. Qed.

Lemma no_exit_request {R} c (answer : list call -> exn + R) : no_exit (request c answer).
Proof. intros w code w'. rewrite request_run. destruct (answer (api w)); discriminate. Qed.

Lemma no_exit_bind {A B} (m : M A) (k : A -> M B) :
  no_exit m -> (forall a, no_exit (k a)) -> no_exit (m ≫= k).
Proof.
  intros Hm Hk w c w'. rewrite bind_run. specialize (Hm w).
  destruct (m w) as [[a|e|c'] w1]; [apply Hk|discriminate|].
  exfalso. eapply Hm. reflexivity.
Qed.

Lemma no_exit_try {A} (body : M A) catches handler :
  no_exit body -> (forall e, no_exit (handler e)) -> no_exit (try_except body catches handler).
Proof.
  intros Hm Hh w c w'. rewrite try_run. specialize (Hm w).
  destruct (body w) as [[a|e|c'] w1]; [discriminate| |].
  - destruct (catches e); [apply Hh|discriminate].
  - exfalso. eapply Hm. reflexivity.
Qed.

Lemma no_exit_for_each {A} (xs : list A) (body : A -> M unit) :
  (forall x, no_exit (body x)) -> no_exit (for_each xs body).
Proof.
  intros Hb. induction xs as [|x xs IH]; simpl.
  - apply no_exit_ret.
  - apply no_exit_bind; auto.
Qed.

Lemma no_exit_wait_loop svc w name delay remaining :
  no_exit (wait_loop svc w name delay remaining).
Proof.
  induction remaining as [|n IH]; simpl;
    (apply no_exit_bind; [apply no_exit_request|]);
    intros [| | |]; auto using no_exit_ret, no_exit_raise.
  apply no_exit_bind; [apply no_exit_request|]. intros _. exact IH.
Qed.

Ltac no_exit :=
  repeat first
    [ apply no_exit_wait_loop | apply no_exit_request | apply no_exit_print
    | apply no_exit_ret | apply no_exit_raise
    | apply no_exit_bind; [|intros ?]
    | apply no_exit_try; [|intros ?]
    | apply no_exit_for_each; intros ?
    | match goal with |- no_exit (if ?b then _ else _) => destruct b end
    | match goal with |- no_exit (match ?x with _ => _ end) => destruct x end ].

Lemma returns_print l message : returns (print_line l message).
Proof. intros w. rewrite print_run. eauto. Qed.

Lemma returns_bind {A B} (m : M A) (k : A -> M B) :
  returns m -> (forall a, returns (k a)) -> returns (m ≫= k).
Proof.
  intros Hm Hk w. rewrite bind_run. destruct (Hm w) as (a & w1 & ->). apply Hk.
Qed.





(** ** The waiter *)

Lemma wait_loop_step svc wt name delay remaining w :
  wait_loop svc wt name delay remaining w =
  match waiter_poll svc (api w) wt name with
  | PollSuccess => (Return tt, log (WaiterPoll wt name) w)
  | PollFailure reason => (Raise (WaiterError (waiter_name wt) reason), log (WaiterPoll wt name) w)
  | PollCrash text => (Raise (OtherError text), log (WaiterPoll wt name) w)
  | PollRetry =>
      match remaining with
      | O => (Raise (WaiterError (waiter_name wt) "Max attempts exceeded"),
              log (WaiterPoll wt name) w)
      | S remaining' =>
          wait_loop svc wt name delay remaining' (log (Sleep delay) (log (WaiterPoll wt name) w))
      end
  end.
Proof.
  destruct remaining; simpl; rewrite bind_run, request_run;
    destruct (waiter_poll svc (api w) wt name); reflexivity.
Qed.



(** ** The ceiling on polls *)

Lemma within_app delay n n' l l' :
  within delay n l -> within delay n' l' -> within delay (n + n') (l ++ l').
Proof.
  unfold within, poll_count, sleeps. intros [Hn Hs] [Hn' Hs'].
  rewrite List.filter_app, length_app, flat_map_app. split; [lia|].
  apply Forall_app; auto.
Qed.

Lemma within_weaken delay n n' l : (n <= n')%nat -> within delay n l -> within delay n' l.
Proof. unfold within. intros Hle [Hn Hs]. split; [lia|exact Hs]. Qed.

Lemma budget_weaken {A} delay n n' (m : M A) :
  (n <= n')%nat -> budget delay n m -> budget delay n' m.
Proof.
  intros Hle Hm w. destruct (Hm w) as (l & Hl & Hw). eauto using within_weaken.
Qed.

Lemma budget_silent {A} delay n (m : M A) :
  (forall w, api (snd (m w)) = api w) -> budget delay n m.
Proof.
  intros Hm w. exists []. rewrite Hm, app_nil_r. split; [reflexivity|].
  split; [apply Nat.le_0_l|constructor].
Qed.

Lemma budget_ret {A} delay n (a : A) : budget delay n (mret a).
Proof. apply budget_silent. reflexivity. Qed.

Lemma budget_raise {A} delay n e : budget delay n (raise (A := A) e).
Proof. apply budget_silent. reflexivity. Qed.

Lemma budget_sys_exit {A} delay n c : budget delay n (sys_exit (A := A) c).
Proof. apply budget_silent. reflexivity. Qed.

Lemma budget_print delay n l message : budget delay n (print_line l message).
Proof. apply budget_silent. reflexivity. Qed.

Lemma budget_request {R} delay n c (answer : list call -> exn + R) :
  within delay n [c] -> budget delay n (request c answer).
Proof.
  intros Hc w. exists [c]. split; [|exact Hc].
  rewrite request_run. destruct (answer (api w)); reflexivity.
Qed.

Lemma budget_bind {A B} delay n n' (m : M A) (k : A -> M B) :
  budget delay n m -> (forall a, budget delay n' (k a)) -> budget delay (n + n') (m ≫= k).
Proof.
  intros Hm Hk w. rewrite bind_run. destruct (Hm w) as (l & Hl & Hw).
  destruct (m w) as [[a|e|c] w1]; simpl in Hl.
  - destruct (Hk a w1) as (l' & Hl' & Hw'). exists (l ++ l').
    split; [rewrite Hl', Hl, app_assoc; reflexivity|apply within_app; assumption].
  - exists l. split; [exact Hl|]. eapply within_weaken; [|exact Hw]. lia.
  - exists l. split; [exact Hl|]. eapply within_weaken; [|exact Hw]. lia.
Qed.

Lemma budget_then {A B} delay n (m : M A) (k : A -> M B) :
  budget delay 0 m -> (forall a, budget delay n (k a)) -> budget delay n (m ≫= k).
Proof. intros Hm Hk. apply (budget_bind delay 0 n); assumption. Qed.

Lemma budget_first {A B} delay n (m : M A) (k : A -> M B) :
  budget delay n m -> (forall a, budget delay 0 (k a)) -> budget delay n (m ≫= k).
Proof.
  intros Hm Hk. rewrite <- (Nat.add_0_r n). apply budget_bind; assumption.
Qed.

Lemma budget_try {A} delay n (body : M A) catches handler :
  budget delay n body -> (forall e, budget delay 0 (handler e)) ->
  budget delay n (try_except body catches handler).
Proof.
  intros Hm Hh w. rewrite try_run. destruct (Hm w) as (l & Hl & Hw).
  destruct (body w) as [[a|e|c] w1]; simpl in Hl; eauto.
  destruct (catches e); [|eauto].
  destruct (Hh e w1) as (l' & Hl' & Hw'). exists (l ++ l').
  split; [rewrite Hl', Hl, app_assoc; reflexivity|].
  rewrite <- (Nat.add_0_r n). apply within_app; assumption.
Qed.

Lemma budget_for_each {A} delay (xs : list A) (body : A -> M unit) :
  (forall x, budget delay 0 (body x)) -> budget delay 0 (for_each xs body).
Proof.
  intros Hb. induction xs as [|x xs IH]; simpl.
  - apply budget_ret.
  - apply budget_then; auto.
Qed.

Lemma budget_wait_loop svc wt name delay remaining :
  budget delay (S remaining) (wait_loop svc wt name delay remaining).
Proof.
  induction remaining as [|n IH]; intros w; rewrite wait_loop_step.
  - exists [WaiterPoll wt name].
    split; [destruct (waiter_poll svc (api w) wt name); reflexivity|].
    split; [unfold poll_count; simpl; lia|constructor].
  - destruct (waiter_poll svc (api w) wt name).
    1,2,4: (exists [WaiterPoll wt name]; split; [reflexivity|];
            split; [unfold poll_count; simpl; lia|constructor]).
    destruct (IH (log (Sleep delay) (log (WaiterPoll wt name) w))) as (l & Hl & Hn & Hs).
    exists (WaiterPoll wt name :: Sleep delay :: l). split.
    + rewrite Hl. simpl. rewrite <- !app_assoc. reflexivity.
    + split; [unfold poll_count in *; simpl; lia|]. simpl. constructor; auto.
Qed.

Lemma budget_waiter_wait svc wt name delay attempts :
  (1 <= attempts)%nat -> budget delay attempts (waiter_wait svc wt name delay attempts).
Proof.
  intros H. unfold waiter_wait. destruct attempts as [|n]; [lia|].
  simpl. rewrite Nat.sub_0_r. apply budget_wait_loop.
Qed.

Ltac quiet := split; [unfold poll_count; simpl; lia|simpl; repeat constructor].

Ltac budget :=
  unfold print_status, print_info, print_warning, print_error, print_header, print;
  repeat first
    [ apply budget_print | apply budget_ret | apply budget_raise | apply budget_sys_exit
    | apply budget_request; quiet
    | apply budget_waiter_wait; lia
    | match goal with
      | |- budget _ _ (waiter_wait _ _ _ _ _ ≫= _) => apply budget_first; [|intros ?]
      end
    | apply budget_then; [|intros ?]
    | apply budget_try; [|intros ?]
    | apply budget_for_each; intros ?
    | match goal with |- budget _ _ (if ?b then _ else _) => destruct b end
    | match goal with |- budget _ _ (match ?x with _ => _ end) => destruct x end ].




(** ** Ending the wait without success *)







(** ** Exhausting the ceiling *)







(** ** From the operations to the exit status of the process *)

(** Read the fields of explicit arguments. *)
Ltac unfold_args :=
  repeat match goal with
         | |- context [command (Args ?c ?d ?f ?r)] =>
             change (command (Args c d f r)) with c
         | |- context [website_folder (Args ?c ?d ?f ?r)] =>
             change (website_folder (Args c d f r)) with f
         | |- context [?p (Args ?c ?d ?f ?r)] =>
             progress change (p (Args c d f r)) with d
         end.

(** What [main] does before it looks at the command: it gets through, or
    the process ends with status 1. *)
Lemma main_preamble_ok svc a cmd w identity :
  command a = Some cmd -> new_session svc = None -> domain_ok (domain a) = true ->
  get_caller_identity svc (api w) = inr identity ->
  main svc a w = run_command svc a cmd (greeted identity w).
Proof.
  intros Hcmd Hsession Hok Hid. unfold main. rewrite Hcmd. run.
  unfold new_deployer. rewrite Hsession. run.
  unfold validate_domain. rewrite Hok. cbn [negb]. run.
  unfold check_credentials, sts_get_caller_identity.
  rewrite ?try_run, ?bind_run, request_run. world. rewrite Hid. run.
  destruct cmd; reflexivity.
Qed.






(** The stuck service, run: 120 polls and 119 sleeps of 30 seconds, then
    failure. *)
Example stuck_deploy_run :
  let r := deploy_stack Stub.stuck "example.com" Stub.empty_world in
  fst r = Return false /\ poll_count (api (snd r)) = 120%nat /\
  sleeps (api (snd r)) = repeat 30%nat 119.
Proof. vm_compute. auto. Qed.

(** ** Teardown *)

(** One bucket whose [head_bucket] raises a client error: a line is
    printed, information for 404 and a warning otherwise, and the loop goes
    on. *)
Lemma empty_bucket_head_error svc bucket w e :
  head_bucket svc (api w) bucket = Some e -> is_ClientError e = true ->
  empty_bucket svc bucket w =
  (Return tt,
   (if String.eqb (error_code e) "404"
    then say Info ("Bucket " +:+ bucket +:+ " does not exist")
    else say Warning ("Error emptying bucket " +:+ bucket +:+ ": " +:+ str_exn e))
     (log (HeadBucket bucket) w)).
Proof.
  intros Hhead Hclient. unfold empty_bucket, s3_head_bucket.
  rewrite try_run, bind_run, request_run, Hhead. cbn [raises]. cbv beta iota.
  rewrite Hclient. destruct (String.eqb (error_code e) "404"); run; reflexivity.
Qed.

Lemma s3_paginate_run svc bucket w :
  s3_paginate svc bucket w = (Return (list_objects_pages svc (api w) bucket), w).
Proof. reflexivity. Qed.

Lemma delete_page_run svc bucket page w :
  delete_page svc bucket page w =
  match page with
  | inl e => (Raise e, log (ListObjectsV2 bucket) w)
  | inr None => (Return tt, log (ListObjectsV2 bucket) w)
  | inr (Some keys) =>
      match delete_objects svc (api w ++ [ListObjectsV2 bucket]) bucket keys with
      | Some e => (Raise e, log (DeleteObjects bucket keys) (log (ListObjectsV2 bucket) w))
      | None => (Return tt, log (DeleteObjects bucket keys) (log (ListObjectsV2 bucket) w))
      end
  end.
Proof.
  unfold delete_page, next_page. rewrite bind_run, request_run.
  destruct page as [e|[keys|]]; try reflexivity.
  unfold s3_delete_objects. rewrite request_run. world.
  destruct (delete_objects svc _ bucket keys); reflexivity.
Qed.

Lemma for_each_pages_cases svc bucket pages :
  (forall e, In (inl e) pages -> is_ClientError e = true) ->
  (forall h keys e, delete_objects svc h bucket keys = Some e -> is_ClientError e = true) ->
  forall w, (exists w', for_each pages (delete_page svc bucket) w = (Return tt, w')) \/
            (exists e w', for_each pages (delete_page svc bucket) w = (Raise e, w') /\
                          is_ClientError e = true).
Proof.
  intros Hpages Hdelete. induction pages as [|page pages IH]; intros w; simpl.
  - left. eauto.
  - rewrite bind_run, delete_page_run.
    assert (forall e, In (inl e) pages -> is_ClientError e = true) as Hrest
      by (intros e He; apply Hpages; right; exact He).
    destruct page as [e|[keys|]].
    + right. exists e. eexists. split; [reflexivity|]. apply Hpages. left. reflexivity.
    + destruct (delete_objects svc _ bucket keys) as [e|] eqn:Hd.
      * right. exists e. eexists. split; [reflexivity|]. eapply Hdelete, Hd.
      * apply IH, Hrest.
    + apply IH, Hrest.
Qed.

(** Emptying a bucket never fails on a client error: the loop ends with
    the line that the bucket is emptied, or with the report of the error. *)
Lemma empty_bucket_outcome svc bucket :
  s3_raises_client_errors svc ->
  forall w, exists w' line,
    empty_bucket svc bucket w = (Return tt, say (fst line) (snd line) w') /\
    (line = (Status, "Bucket " +:+ bucket +:+ " emptied") \/
     exists e, is_ClientError e = true /\ line = bucket_report bucket e).
Proof.
  intros (Hhead & Hpages & Hdelete) w. unfold bucket_report.
  destruct (head_bucket svc (api w) bucket) as [e|] eqn:Hh.
  - rewrite (empty_bucket_head_error svc bucket w e Hh (Hhead _ _ _ Hh)).
    exists (log (HeadBucket bucket) w). eexists. split.
    2: { right. exists e. split; [eapply Hhead, Hh|reflexivity]. }
    destruct (String.eqb (error_code e) "404"); reflexivity.
  - unfold empty_bucket, s3_head_bucket.
    rewrite try_run, bind_run, request_run, Hh. cbn [raises]. run.
    rewrite s3_paginate_run. run.
    match goal with
    | |- context [for_each ?pages _ ?w1] =>
        destruct (for_each_pages_cases svc bucket pages
                    (fun e He => Hpages _ _ e He) (fun h => Hdelete h bucket) w1)
          as [(w' & ->)|(e & w' & -> & He)]
    end.
    + run. exists w'. eexists (_, _). split; [reflexivity|]. left. reflexivity.
    + cbv beta iota. rewrite He. exists w'. eexists. split.
      2: { right. exists e. split; [exact He|reflexivity]. }
      destruct (String.eqb (error_code e) "404"); run; reflexivity.
Qed.

Lemma empty_bucket_returns svc bucket :
  s3_raises_client_errors svc -> returns (empty_bucket svc bucket).
Proof.
  intros Hs3 w. destruct (empty_bucket_outcome svc bucket Hs3 w) as (w' & line & -> & _).
  eauto.
Qed.

Lemma empty_s3_buckets_returns svc domain :
  s3_raises_client_errors svc -> returns (empty_s3_buckets svc domain).
Proof.
  intros Hs3. unfold empty_s3_buckets, print_info.
  apply returns_bind; [apply returns_print|intros _]. cbv zeta. simpl for_each.
  apply returns_bind; [apply empty_bucket_returns, Hs3|intros _].
  apply returns_bind; [apply empty_bucket_returns, Hs3|intros _].
  intros w. rewrite ret_run. eauto.
Qed.

(** The stack steps of [cleanup_stack], from the world the bucket loop
    leaves: a client error of [describe_stacks] or [delete_stack] decides
    the result by its text. *)
Lemma cleanup_stack_describe_error svc domain w w1 e :
  empty_s3_buckets svc domain
    (say Header ("Cleaning up AWS resources for " +:+ domain +:+ "...") w) = (Return tt, w1) ->
  describe_stacks svc (api w1) (get_stack_name domain) = inl e ->
  is_ClientError e = true ->
  cleanup_stack svc domain w =
  (Return (PyStr.contains "does not exist" (str_exn e)),
   (if PyStr.contains "does not exist" (str_exn e)
    then say Info ("CloudFormation stack " +:+ get_stack_name domain +:+ " does not exist")
    else say Error ("Stack deletion failed: " +:+ str_exn e))
     (log (DescribeStacks (get_stack_name domain)) w1)).
Proof.
  intros Hempty Hdescribe Hclient. unfold cleanup_stack. cbv zeta. run.
  rewrite Hempty. cbv beta iota.
  unfold cloudformation_describe_stacks. rewrite try_run, bind_run, request_run, Hdescribe.
  cbv beta iota. rewrite Hclient.
  destruct (PyStr.contains "does not exist" (str_exn e)); run; reflexivity.
Qed.

Lemma cleanup_stack_delete_error svc domain w w1 stacks e :
  empty_s3_buckets svc domain
    (say Header ("Cleaning up AWS resources for " +:+ domain +:+ "...") w) = (Return tt, w1) ->
  describe_stacks svc (api w1) (get_stack_name domain) = inr stacks ->
  delete_stack svc (api w1 ++ [DescribeStacks (get_stack_name domain)]) (get_stack_name domain)
  = Some e ->
  is_ClientError e = true ->
  fst (cleanup_stack svc domain w) = Return (PyStr.contains "does not exist" (str_exn e)) /\
  api (snd (cleanup_stack svc domain w)) =
  api w1 ++ [DescribeStacks (get_stack_name domain); DeleteStack (get_stack_name domain)].
Proof.
  intros Hempty Hdescribe Hdelete Hclient. unfold cleanup_stack. cbv zeta. run.
  rewrite Hempty. cbv beta iota.
  unfold cloudformation_describe_stacks. rewrite try_run, bind_run, request_run, Hdescribe.
  run. unfold cloudformation_delete_stack. rewrite request_run. world.
  rewrite Hdelete. cbn [raises]. cbv beta iota. rewrite Hclient.
  destruct (PyStr.contains "does not exist" (str_exn e)); run; simpl;
    rewrite <- app_assoc; auto.
Qed.

(** C6. When neither bucket nor the stack is there, [cleanup_stack] sends
    the three probes and nothing else, prints information only and reports
    success; run from the command line and confirmed, the process ends with
    status 0 after "Cleanup completed!". *)
Theorem teardown_of_nothing (svc : services) (domain : string) (w : world) :
  bucket_missing svc domain ->
  bucket_missing svc ("www." +:+ domain) ->
  stack_missing svc (get_stack_name domain) ->
  fst (cleanup_stack svc domain w) = Return true /\
  api (snd (cleanup_stack svc domain w)) =
    api w ++ [HeadBucket domain; HeadBucket ("www." +:+ domain);
              DescribeStacks (get_stack_name domain)] /\
  console (snd (cleanup_stack svc domain w)) =
    console w ++
    [(Header, "Cleaning up AWS resources for " +:+ domain +:+ "...");
     (Info, "Emptying S3 buckets...");
     (Info, "Bucket " +:+ domain +:+ " does not exist");
     (Info, "Bucket " +:+ ("www." +:+ domain) +:+ " does not exist");
     (Info, "CloudFormation stack " +:+ get_stack_name domain +:+ " does not exist")] /\
  fs (snd (cleanup_stack svc domain w)) = fs w /\
  (forall region identity,
     new_session svc = None -> domain_ok domain = true ->
     get_caller_identity svc (api w) = inr identity ->
     (forall h, input svc h = "yes") ->
     let r := script svc (Args (Some cleanup) domain None region) w in
     fst r = 0%Z /\ last (console (snd r)) = Some (Status, "Cleanup completed!")).
Proof.
  intros Hbucket Hwww Hstack.
  assert (forall w0, exists w1,
            cleanup_stack svc domain w0 = (Return true, w1) /\
            api w1 = api w0 ++ [HeadBucket domain; HeadBucket ("www." +:+ domain);
                                DescribeStacks (get_stack_name domain)] /\
            console w1 =
              console w0 ++
              [(Header, "Cleaning up AWS resources for " +:+ domain +:+ "...");
               (Info, "Emptying S3 buckets...");
               (Info, "Bucket " +:+ domain +:+ " does not exist");
               (Info, "Bucket " +:+ ("www." +:+ domain) +:+ " does not exist");
               (Info, "CloudFormation stack " +:+ get_stack_name domain +:+ " does not exist")] /\
            fs w1 = fs w0) as Hrun.
  { intros w0.
    set (wa := say Info "Emptying S3 buckets..."
                 (say Header ("Cleaning up AWS resources for " +:+ domain +:+ "...") w0)).
    destruct (Hbucket (api wa)) as (m1 & o1 & r1 & H1).
    pose proof (empty_bucket_head_error svc domain wa _ H1 eq_refl) as E1.
    cbn [error_code String.eqb Ascii.eqb Bool.eqb] in E1.
    match type of E1 with _ = (_, ?x) => set (wb := x) in E1 end.
    destruct (Hwww (api wb)) as (m2 & o2 & r2 & H2).
    pose proof (empty_bucket_head_error svc ("www." +:+ domain) wb _ H2 eq_refl) as E2.
    cbn [error_code String.eqb Ascii.eqb Bool.eqb] in E2.
    match type of E2 with _ = (_, ?x) => set (wc := x) in E2 end.
    assert (empty_s3_buckets svc domain
              (say Header ("Cleaning up AWS resources for " +:+ domain +:+ "...") w0)
            = (Return tt, wc)) as Hempty.
    { unfold empty_s3_buckets. cbv zeta. run. fold wa. simpl for_each.
      rewrite bind_run, E1. cbv beta iota. rewrite bind_run, E2. reflexivity. }
    destruct (Hstack (api wc)) as (e & Hd & Hclient & Htext).
    rewrite (cleanup_stack_describe_error svc domain w0 wc e Hempty Hd Hclient), Htext.
    eexists. split; [reflexivity|]. unfold wc, wb, wa. simpl.
    rewrite <- !app_assoc. auto. }
  destruct (Hrun w) as (w1 & Hw & Hapi & Hconsole & Hfs). rewrite Hw. simpl.
  split; [reflexivity|]. split; [exact Hapi|]. split; [exact Hconsole|]. split; [exact Hfs|].
  intros region identity Hsession Hok Hid Hyes. unfold script.
  rewrite (main_preamble_ok svc (Args (Some cleanup) domain None region) cleanup w identity
             eq_refl Hsession Hok Hid).
  unfold run_command. run. rewrite Hyes. cbn [String.eqb Ascii.eqb Bool.eqb negb]. run.
  unfold_args.
  match goal with
  | |- context [cleanup_stack svc domain ?w2] =>
      destruct (Hrun w2) as (w3 & -> & _)
  end.
  run. cbn [fst snd console say]. rewrite last_snoc. auto.
Qed.

Lemma teardown_of_nothing_witness :
  fst (cleanup_stack Stub.nothing "example.com" Stub.empty_world) = Return true.
Proof.
  apply (teardown_of_nothing Stub.nothing "example.com" Stub.empty_world).
  - intros h. do 3 eexists. reflexivity.
  - intros h. do 3 eexists. reflexivity.
  - intros h. eexists. split; [reflexivity|]. split; reflexivity.
Defined.

(** C3, as the specification words it, fails: both buckets answer 403,
    which is no "not found", and the teardown goes on, deletes the stack and
    reports success. *)
Lemma bucket_error_not_fatal :
  let r := cleanup_stack Stub.locked_buckets "example.com" Stub.empty_world in
  head_bucket Stub.locked_buckets [] "example.com" = Some Stub.forbidden /\
  error_code Stub.forbidden = "403" /\
  PyStr.contains "does not exist" (str_exn Stub.forbidden) = false /\
  fst r = Return true /\
  api (snd r) =
    [HeadBucket "example.com"; HeadBucket "www.example.com";
     DescribeStacks "website-example-com"; DeleteStack "website-example-com";
     WaiterPoll stack_delete_complete "website-example-com"] /\
  In (Warning, "Error emptying bucket example.com: " +:+ str_exn Stub.forbidden)
     (console (snd r)).
Proof. vm_compute. intuition. Qed.

(** C3, as the code has it. In the stack steps of the teardown a client
    error of describe-stacks or delete-stack is fatal, [cleanup_stack]
    reports failure, unless its text holds "does not exist", and then it
    reports success. In the bucket steps a client error is never fatal: the
    bucket's loop prints information for code 404 and a warning for any
    other code, and the teardown goes on. *)
Theorem teardown_errors (svc : services) (domain : string) :
  let name := get_stack_name domain in
  let header := "Cleaning up AWS resources for " +:+ domain +:+ "..." in
  (forall w w1 e,
     empty_s3_buckets svc domain (say Header header w) = (Return tt, w1) ->
     describe_stacks svc (api w1) name = inl e -> is_ClientError e = true ->
     fst (cleanup_stack svc domain w) = Return (PyStr.contains "does not exist" (str_exn e))) /\
  (forall w w1 stacks e,
     empty_s3_buckets svc domain (say Header header w) = (Return tt, w1) ->
     describe_stacks svc (api w1) name = inr stacks ->
     delete_stack svc (api w1 ++ [DescribeStacks name]) name = Some e ->
     is_ClientError e = true ->
     fst (cleanup_stack svc domain w) = Return (PyStr.contains "does not exist" (str_exn e))) /\
  (forall bucket w e,
     head_bucket svc (api w) bucket = Some e -> is_ClientError e = true ->
     empty_bucket svc bucket w =
     (Return tt,
      (if String.eqb (error_code e) "404"
       then say Info ("Bucket " +:+ bucket +:+ " does not exist")
       else say Warning ("Error emptying bucket " +:+ bucket +:+ ": " +:+ str_exn e))
        (log (HeadBucket bucket) w))) /\
  (s3_raises_client_errors svc ->
   returns (empty_s3_buckets svc domain) /\
   forall bucket w, exists w' line,
     empty_bucket svc bucket w = (Return tt, say (fst line) (snd line) w') /\
     (line = (Status, "Bucket " +:+ bucket +:+ " emptied") \/
      exists e, is_ClientError e = true /\ line = bucket_report bucket e)).
Proof.
  intros name header. split; [|split; [|split]].
  - intros w w1 e Hempty Hd Hc.
    rewrite (cleanup_stack_describe_error svc domain w w1 e Hempty Hd Hc). reflexivity.
  - intros w w1 stacks e Hempty Hd Hdel Hc.
    apply (cleanup_stack_delete_error svc domain w w1 stacks e Hempty Hd Hdel Hc).
  - intros bucket w e. apply empty_bucket_head_error.
  - intros Hs3. split; [apply empty_s3_buckets_returns, Hs3|].
    intros bucket. apply empty_bucket_outcome, Hs3.
Qed.

Lemma teardown_errors_witness :
  returns (empty_s3_buckets Stub.locked_buckets "example.com") /\
  fst (cleanup_stack Stub.denied "example.com" Stub.empty_world) = Return false.
Proof.
  split.
  - apply (proj2 (proj2 (proj2 (teardown_errors Stub.locked_buckets "example.com")))).
    split; [|split].
    + intros h bucket e [= <-]. reflexivity.
    + intros h bucket e [].
    + intros h bucket keys e [=].
  - apply (proj1 (teardown_errors Stub.denied "example.com") Stub.empty_world
             (snd (empty_s3_buckets Stub.denied "example.com"
                     (say Header "Cleaning up AWS resources for example.com..."
                        Stub.empty_world)))
             (ClientError "AccessDenied"
                "User is not authorized to perform: cloudformation:DescribeStacks"
                "DescribeStacks" "")).
    + vm_compute. reflexivity.
    + vm_compute. reflexivity.
    + reflexivity.
Defined.

(** ** Uploads *)

Lemma uploads_succeed_app svc h cs cs' :
  uploads_succeed svc h (cs ++ cs') <->
  uploads_succeed svc h cs /\ uploads_succeed svc (h ++ cs) cs'.
Proof.
  revert h. induction cs as [|c cs IH]; intros h; simpl.
  - rewrite app_nil_r. tauto.
  - rewrite IH, <- app_assoc. simpl. tauto.
Qed.

Lemma performs_ret svc : performs svc (mret tt) [].
Proof.
  intros w. split.
  - intros _. exists w. rewrite ret_run, app_nil_r. auto.
  - intros pre c post e H. destruct pre; discriminate H.
Qed.

Lemma performs_upload_one svc domain folder_path root file :
  performs svc (upload_one svc domain folder_path root file)
           [upload_call svc domain folder_path root file].
Proof.
  intros w. unfold upload_one, s3_upload_file. cbv zeta. fold (upload_call svc domain folder_path root file).
  rewrite bind_run, request_run. split.
  - intros [Hok _]. unfold upload_call in Hok at 1. simpl in Hok. rewrite Hok. cbn [raises]. run.
    eexists. split; [reflexivity|]. auto.
  - intros pre c post e Hcs _ Hfail.
    destruct pre as [|c' pre]; [|destruct pre; discriminate Hcs].
    injection Hcs as <-. rewrite app_nil_r in Hfail.
    unfold upload_call in Hfail at 1. simpl in Hfail. rewrite Hfail. cbn [raises]. cbv beta iota.
    eexists. split; [reflexivity|]. auto.
Qed.

Lemma performs_seq svc (m m' : M unit) cs cs' :
  performs svc m cs -> performs svc m' cs' -> performs svc (m;; m') (cs ++ cs').
Proof.
  intros Hm Hm' w. rewrite bind_run. destruct (Hm w) as [Hok Hfail]. split.
  - intros Hall. apply uploads_succeed_app in Hall as [H1 H2].
    destruct (Hok H1) as (w1 & -> & Hapi & Hfs).
    destruct (Hm' w1) as [Hok' _]. rewrite Hapi in Hok'.
    destruct (Hok' H2) as (w2 & -> & Hapi' & Hfs').
    exists w2. split; [reflexivity|]. rewrite Hapi', Hfs', app_assoc. auto.
  - intros pre c post e Hcs Hpre Hc.
    apply app_eq_app in Hcs as [l [[-> Hl]|[-> ->]]].
    + destruct l as [|c' l]; simpl in Hl.
      * subst cs'. rewrite app_nil_r in *.
        destruct (Hok Hpre) as (w1 & -> & Hapi & Hfs).
        destruct (Hm' w1) as [_ Hfail']. rewrite Hapi in Hfail'.
        destruct (Hfail' [] c post e eq_refl I) as (w2 & -> & Hapi' & Hfs').
        { rewrite app_nil_r. exact Hc. }
        exists w2. split; [reflexivity|]. rewrite Hapi', Hfs'. simpl.
        rewrite <- app_assoc. auto.
      * injection Hl as <- ->.
        destruct (Hfail pre c l e eq_refl Hpre Hc) as (w1 & -> & Hapi & Hfs). eauto.
    + apply uploads_succeed_app in Hpre as [H1 H2].
      destruct (Hok H1) as (w1 & -> & Hapi & Hfs).
      destruct (Hm' w1) as [_ Hfail']. rewrite Hapi in Hfail'.
      destruct (Hfail' l c post e eq_refl H2) as (w2 & -> & Hapi' & Hfs').
      { rewrite <- app_assoc. exact Hc. }
      exists w2. split; [reflexivity|]. rewrite Hapi', Hfs', <- !app_assoc. auto.
Qed.

Lemma performs_for_each {A} svc (xs : list A) (body : A -> M unit) (seg : A -> list call) :
  (forall x, performs svc (body x) (seg x)) ->
  performs svc (for_each xs body) (flat_map seg xs).
Proof.
  intros Hbody. induction xs as [|x xs IH]; simpl.
  - apply performs_ret.
  - apply performs_seq; auto.
Qed.

Lemma performs_directory svc domain folder_path root files :
  performs svc (for_each files (upload_one svc domain folder_path root))
           (upload_call svc domain folder_path root <$> files).
Proof.
  induction files as [|file files IH]; simpl.
  - apply performs_ret.
  - apply (performs_seq svc _ _ [_]); [apply performs_upload_one|exact IH].
Qed.

(** The loop of [upload_files] sends the planned uploads. *)
Lemma performs_upload_loop svc domain folder_path triples :
  performs svc
    (for_each triples (fun triple =>
       for_each (snd triple) (upload_one svc domain folder_path (fst (fst triple)))))
    (planned_uploads svc domain folder_path triples).
Proof.
  unfold planned_uploads. apply performs_for_each. intros triple.
  apply performs_directory.
Qed.

Lemma path_exists_run path w :
  path_exists path w = (Return (bool_decide (is_Some (fs w !! path))), w).
Proof. reflexivity. Qed.

Lemma os_walk_run top w : os_walk top w = (Return (walked w top), w).
Proof. reflexivity. Qed.

Lemma int_time_run svc w : int_time svc w = (Return (time_time svc (api w)), w).
Proof. reflexivity. Qed.

(** What [get_stack_outputs] leaves in the log, and the distribution id in
    what it returns. *)
Lemma get_stack_outputs_run svc domain w :
  exists outputs w',
    get_stack_outputs svc domain w = (Return outputs, w') /\
    api w' = api w ++ [DescribeStacks (get_stack_name domain)] /\ fs w' = fs w /\
    dict_get "CloudFrontDistributionId" outputs =
    distribution_of (describe_stacks svc (api w) (get_stack_name domain)).
Proof.
  unfold get_stack_outputs, cloudformation_describe_stacks. cbv zeta.
  rewrite try_run, bind_run, request_run.
  destruct (describe_stacks svc (api w) (get_stack_name domain)) as [e|[|first rest]]; run;
    eexists _, _; (split; [reflexivity|]); auto.
Qed.

Lemma only_uploads l :
  Forall is_upload l -> uploads l = l /\ invalidations l = [] /\ deletions l = [].
Proof.
  induction 1 as [|c l (f & b & k & t & ->) _ (IH1 & IH2 & IH3)]; [auto|].
  unfold uploads, invalidations, deletions in *. simpl. rewrite IH1. auto.
Qed.

Lemma planned_only_uploads svc domain folder_path triples :
  Forall is_upload (planned_uploads svc domain folder_path triples).
Proof.
  unfold planned_uploads. apply Forall_flat_map, Forall_forall. intros triple _.
  apply Forall_fmap, Forall_forall. intros file _. unfold upload_call, is_upload. simpl. eauto.
Qed.

Lemma planned_uploads_no_invalidation svc domain folder_path triples :
  invalidations (planned_uploads svc domain folder_path triples) = [].
Proof. apply only_uploads, planned_only_uploads. Qed.

Lemma upload_files_aborts (svc : services) (domain folder_path : string)
    (w : world) (pre : list call) (c : call) (post : list call) (e : exn) :
  is_Some (fs w !! folder_path) ->
  planned_uploads svc domain folder_path (walked w folder_path) = pre ++ c :: post ->
  uploads_succeed svc (api w) pre ->
  upload_answer svc (api w ++ pre) c = Some e ->
  let r := upload_files svc domain folder_path w in
  fst r = Return false /\
  api (snd r) = api w ++ pre ++ [c] /\
  last (console (snd r)) = Some (Error, "File upload failed: " +:+ str_exn e) /\
  fs (snd r) = fs w.
Proof.
  intros Hexists Hplan Hpre Hfail. unfold upload_files.
  rewrite bind_run, path_exists_run. cbv beta iota.
  rewrite (bool_decide_eq_true_2 _ Hexists). run.
  rewrite os_walk_run. run.
  set (w0 := say Header _ w).
  destruct (performs_upload_loop svc domain folder_path (walked w0 folder_path) w0)
    as [_ Hloop].
  destruct (Hloop pre c post e Hplan Hpre Hfail) as (w1 & -> & Hapi & Hfs).
  run. cbn [fst snd api console fs say]. rewrite last_snoc. auto.
Qed.

(** C7. When an upload fails after the uploads before it succeeded,
    [upload_files] has sent those uploads and the failing one and nothing
    else: no further upload, nothing that undoes an upload, no
    invalidation. It prints the error and reports failure. *)
Theorem upload_aborts_on_first_error (svc : services) (domain folder_path : string)
    (w : world) (pre : list call) (c : call) (post : list call) (e : exn) :
  is_Some (fs w !! folder_path) ->
  planned_uploads svc domain folder_path (walked w folder_path) = pre ++ c :: post ->
  uploads_succeed svc (api w) pre ->
  upload_answer svc (api w ++ pre) c = Some e ->
  let r := upload_files svc domain folder_path w in
  fst r = Return false /\
  api (snd r) = api w ++ pre ++ [c] /\
  last (console (snd r)) = Some (Error, "File upload failed: " +:+ str_exn e) /\
  fs (snd r) = fs w /\
  uploads (api (snd r)) = uploads (api w) ++ pre ++ [c] /\
  invalidations (api (snd r)) = invalidations (api w) /\
  deletions (api (snd r)) = deletions (api w).
Proof.
  intros Hexists Hplan Hpre Hfail r.
  destruct (upload_files_aborts svc domain folder_path w pre c post e Hexists Hplan Hpre Hfail)
    as (Hr & Hapi & Hconsole & Hfs).
  fold r in Hr, Hapi, Hconsole, Hfs. repeat (split; [assumption|]).
  assert (Forall is_upload (pre ++ [c])) as Hup.
  { pose proof (planned_only_uploads svc domain folder_path (walked w folder_path)) as Hall.
    rewrite Hplan in Hall. apply Forall_app in Hall as [H1 H2].
    apply Forall_app. split; [exact H1|]. apply Forall_cons_1 in H2 as [H2 _]. auto. }
  apply only_uploads in Hup as (H1 & H2 & H3).
  rewrite Hapi. set (tail := pre ++ [c]) in *.
  unfold uploads, invalidations, deletions in *.
  rewrite !List.filter_app, H1, H2, H3, !app_nil_r. auto.
Qed.

Lemma upload_aborts_on_first_error_witness :
  let r := upload_files Stub.refusing_css "example.com" "site" Stub.site_world in
  fst r = Return false /\
  api (snd r) =
    [] ++ [UploadFile "site/index.html" "example.com" "index.html" "text/html"]
       ++ [UploadFile "site/style.css" "example.com" "style.css" "text/css"].
Proof.
  assert (is_Some (fs Stub.site_world !! "site")) as H1 by (vm_compute; eauto).
  assert (planned_uploads Stub.refusing_css "example.com" "site" (walked Stub.site_world "site")
          = [UploadFile "site/index.html" "example.com" "index.html" "text/html"]
            ++ UploadFile "site/style.css" "example.com" "style.css" "text/css"
            :: [UploadFile "site/img/logo.png" "example.com" "img/logo.png" "image/png"])
    as H2 by (vm_compute; reflexivity).
  assert (uploads_succeed Stub.refusing_css (api Stub.site_world)
            [UploadFile "site/index.html" "example.com" "index.html" "text/html"])
    as H3 by (vm_compute; auto).
  assert (upload_answer Stub.refusing_css
            (api Stub.site_world
             ++ [UploadFile "site/index.html" "example.com" "index.html" "text/html"])
            (UploadFile "site/style.css" "example.com" "style.css" "text/css")
          = Some (OtherError "Failed to upload site/style.css"))
    as H4 by (vm_compute; reflexivity).
  pose proof (upload_aborts_on_first_error Stub.refusing_css "example.com" "site"
                Stub.site_world _ _ _ _ H1 H2 H3 H4) as (Hr & Hapi & _).
  split; [exact Hr|exact Hapi].
Defined.

(** C2, as the specification words it, fails: every upload succeeds, the
    request that describes the stack is throttled, and no invalidation is
    sent; [upload_files] reports success all the same. *)
Lemma uploads_without_invalidation :
  let planned := planned_uploads Stub.throttled "example.com" "site"
                   (walked Stub.site_world "site") in
  let r := upload_files Stub.throttled "example.com" "site" Stub.site_world in
  length planned = 3%nat /\
  uploads_succeed Stub.throttled (api Stub.site_world) planned /\
  fst r = Return true /\
  api (snd r) = planned ++ [DescribeStacks "website-example-com"] /\
  invalidations (api (snd r)) = [].
Proof. vm_compute. intuition. Qed.

Lemma upload_files_completes (svc : services) (domain folder_path : string) (w : world) :
  is_Some (fs w !! folder_path) ->
  uploads_succeed svc (api w)
    (planned_uploads svc domain folder_path (walked w folder_path)) ->
  let h := api w ++ planned_uploads svc domain folder_path (walked w folder_path) in
  let name := get_stack_name domain in
  let id := distribution_of (describe_stacks svc h name) in
  let reference := PyStr.str_of_int (time_time svc (h ++ [DescribeStacks name])) in
  let r := upload_files svc domain folder_path w in
  fs (snd r) = fs w /\
  if truthy id then
    api (snd r) =
      h ++ [DescribeStacks name; CreateInvalidation (default "" id) 1 ["/*"] reference] /\
    exists uploaded, fst r = Return uploaded
  else
    api (snd r) = h ++ [DescribeStacks name] /\ fst r = Return true.
Proof.
  intros Hexists Hall h name id reference. unfold upload_files.
  rewrite bind_run, path_exists_run. cbv beta iota.
  rewrite (bool_decide_eq_true_2 _ Hexists). run.
  rewrite os_walk_run. run.
  set (w0 := say Header _ w).
  destruct (performs_upload_loop svc domain folder_path (walked w0 folder_path) w0)
    as [Hloop _].
  destruct (Hloop Hall) as (w1 & -> & Hapi & Hfs). run.
  change (walked w0 folder_path) with (walked w folder_path) in Hapi.
  change (api w0) with (api w) in Hapi. change (fs w0) with (fs w) in Hfs. fold h in Hapi.
  destruct (get_stack_outputs_run svc domain (say Status "Files uploaded successfully" w1))
    as (outputs & w2 & -> & Hapi2 & Hfs2 & Hid).
  cbv beta iota. rewrite api_say, Hapi in Hapi2, Hid. fold name in Hapi2, Hid. fold id in Hid.
  rewrite fs_say, Hfs in Hfs2. rewrite Hid.
  destruct (truthy id); run.
  - rewrite int_time_run. run. unfold cloudfront_create_invalidation.
    rewrite request_run. world. rewrite Hapi2. fold reference.
    destruct (raises _); run; cbn [fst snd api fs say log]; rewrite Hapi2, <- app_assoc; eauto.
  - cbn [fst snd api fs]. rewrite Hapi2. auto.
Qed.

(** C2, as the code has it. When the folder exists and every upload
    succeeds, [upload_files] describes the stack; if the outputs hold a
    non-empty distribution id it then sends exactly one invalidation, for
    that distribution, with the one path /* and the current time in seconds
    as caller reference; if they hold none, or the stack cannot be
    described, it sends none and reports success. *)
Theorem invalidation_after_uploads (svc : services) (domain folder_path : string) (w : world) :
  is_Some (fs w !! folder_path) ->
  uploads_succeed svc (api w)
    (planned_uploads svc domain folder_path (walked w folder_path)) ->
  let h := api w ++ planned_uploads svc domain folder_path (walked w folder_path) in
  let name := get_stack_name domain in
  let id := distribution_of (describe_stacks svc h name) in
  let reference := PyStr.str_of_int (time_time svc (h ++ [DescribeStacks name])) in
  let r := upload_files svc domain folder_path w in
  if truthy id then
    api (snd r) =
      h ++ [DescribeStacks name; CreateInvalidation (default "" id) 1 ["/*"] reference] /\
    invalidations (api (snd r)) =
      invalidations (api w) ++ [CreateInvalidation (default "" id) 1 ["/*"] reference]
  else
    api (snd r) = h ++ [DescribeStacks name] /\
    invalidations (api (snd r)) = invalidations (api w) /\
    fst r = Return true.
Proof.
  intros Hexists Hall h name id reference r.
  pose proof (upload_files_completes svc domain folder_path w Hexists Hall) as [_ Hrun].
  fold h name id reference r in Hrun.
  assert (invalidations h = invalidations (api w)) as Hinv.
  { unfold h, invalidations. rewrite List.filter_app.
    fold (invalidations (planned_uploads svc domain folder_path (walked w folder_path))).
    rewrite planned_uploads_no_invalidation, app_nil_r. reflexivity. }
  destruct (truthy id).
  - destruct Hrun as [Hapi _]. split; [exact Hapi|]. rewrite Hapi.
    unfold invalidations in *. rewrite List.filter_app, Hinv. reflexivity.
  - destruct Hrun as [Hapi Hr]. split; [exact Hapi|]. split; [|exact Hr]. rewrite Hapi.
    unfold invalidations in *. rewrite List.filter_app, Hinv. apply app_nil_r.
Qed.

Lemma invalidation_after_uploads_witness :
  let r := upload_files Stub.deployed "example.com" "site" Stub.site_world in
  api (snd r) =
    ([] ++ planned_uploads Stub.deployed "example.com" "site" (walked Stub.site_world "site"))
    ++ [DescribeStacks "website-example-com";
        CreateInvalidation "E2QWRUHAPOMQZL" 1 ["/*"] "1700000000"] /\
  invalidations (api (snd r)) =
    [] ++ [CreateInvalidation "E2QWRUHAPOMQZL" 1 ["/*"] "1700000000"].
Proof.
  apply (invalidation_after_uploads Stub.deployed "example.com" "site" Stub.site_world).
  - vm_compute. eauto.
  - vm_compute. auto.
Defined.

(** ** The sample website *)






Lemma staged_directory svc domain w :
  fs (staged svc domain w) !! mkdtemp svc (api w)
  = Some (Dir [("index.html", File (html_content domain))]).
Proof. unfold staged. simpl. apply lookup_insert_eq. Qed.

Lemma staged_walk svc domain w :
  walked (staged svc domain w) (mkdtemp svc (api w))
  = [(mkdtemp svc (api w), [], ["index.html"])].
Proof. unfold walked. rewrite staged_directory. reflexivity. Qed.


(** [upload_files] on the staged world: the one page is sent, then at most
    the probe of the stack and an invalidation. *)
Lemma staged_upload svc domain w :
  exists uploaded w',
    upload_files svc domain (mkdtemp svc (api w)) (staged svc domain w) = (Return uploaded, w') /\
    exists rest,
      api w' = api w ++ upload_call svc domain (mkdtemp svc (api w)) (mkdtemp svc (api w))
                                    "index.html" :: rest /\
      uploads rest = [].
Proof.
  set (tmp := mkdtemp svc (api w)). set (index := upload_call svc domain tmp tmp "index.html").
  assert (is_Some (fs (staged svc domain w) !! tmp)) as Hexists
    by (unfold tmp; rewrite staged_directory; eauto).
  assert (planned_uploads svc domain tmp (walked (staged svc domain w) tmp) = [index]) as Hplan
    by (unfold tmp; rewrite staged_walk; reflexivity).
  destruct (upload_answer svc (api (staged svc domain w)) index) as [e|] eqn:Hanswer.
  - assert (upload_answer svc (api (staged svc domain w) ++ []) index = Some e) as Hfail
      by (rewrite app_nil_r; exact Hanswer).
    destruct (upload_files_aborts svc domain tmp (staged svc domain w) [] index [] e
                Hexists Hplan I Hfail) as (Hr & Hapi & _).
    destruct (upload_files svc domain tmp (staged svc domain w)) as [r w'].
    simpl in Hr, Hapi. subst r. exists false, w'. split; [reflexivity|].
    exists []. auto.
  - pose proof (upload_files_completes svc domain tmp (staged svc domain w) Hexists) as Hrun.
    rewrite Hplan in Hrun. specialize (Hrun (conj Hanswer I)). cbv zeta in Hrun.
    destruct Hrun as [_ Hrun].
    destruct (upload_files svc domain tmp (staged svc domain w)) as [r w'].
    cbn [fst snd] in Hrun. change (api (staged svc domain w)) with (api w) in Hrun.
    destruct (truthy _).
    + destruct Hrun as [Hapi [uploaded ->]]. exists uploaded, w'. split; [reflexivity|].
      eexists. rewrite Hapi, <- app_assoc. split; reflexivity.
    + destruct Hrun as [Hapi ->]. exists true, w'. split; [reflexivity|].
      eexists. rewrite Hapi, <- app_assoc. split; reflexivity.
Qed.


















